(** * Mock UV-Vis spectrometer simulator

    A shallow embedding of [mock_uvvis_controller.py] (class
    [MockUVVisController] and its result container [MockSpectrumData]) and
    the properties its specification states about it, followed by further
    properties of the simulator and of two functions of the setup script kept
    in the same file.

    Modelling conventions.
    - A numpy [float64] array is a list of real numbers and arithmetic on it
      is exact: rounding, overflow and the conversion of very large Python
      integers to floats are idealised away.  Arrays are values; the program
      never writes into an array in place.
    - A Python [dict] is an object on a heap and is handled by reference
      ([ref]), because [measure_spectrum] updates the dictionary it is given
      in place.
    - The environment the program reads and writes (numpy's global random
      generator, the wall clock, standard output, the heap) is an explicit
      [world], threaded by a state-and-exception monad [M].  A raised
      exception keeps the effects that happened before it.
    - numpy itself is not part of the repository; the few functions the
      program calls are modelled in [Module np] after numpy's documented
      behaviour. *)

From Stdlib Require Import Reals Lra ZArith List.
From stdpp Require Import gmap strings list fin_maps.

Open Scope R_scope.

(** ** Python values, exceptions and the world *)

(** The exceptions this program can raise. *)
Inductive exn :=
| RuntimeError (msg : string)
| UnboundLocalError (name : string)
| ValueError (msg : string).

Inductive result (A : Type) :=
| Ok (a : A)
| Raised (e : exn).
Arguments Ok {A} a.
Arguments Raised {A} e.

(** numpy arrays as the program meets them: the scalar [nan] that a
    reduction over nothing produces, a 1-D array, a 2-D array of rows. *)
Inductive ndarray :=
| nan
| vec (v : list R)
| mat (rows : list (list R)).

Inductive pyval :=
| PyNone
| PyBool (b : bool)
| PyInt (z : Z)
| PyStr (s : string)
| PyArray (a : ndarray).

(** A dictionary with string keys; [dict] objects live on the heap and are
    named by a reference. *)
Abbreviation dict := (gmap string pyval).
Abbreviation ref := nat.

(** What [print] writes.  The formatted numbers are kept as numbers. *)
Inductive line :=
| LConnected (serial_number : option string)
| LDisconnected
| LMeasured (integration_time_us : Z) (max_intensity : R)
| LOptimizing
| LOptimized (optimal : Z).

Record world := World {
  rng : nat -> R;      (* standard normal variates the generator will yield next *)
  clock : nat -> Z;    (* the next readings of datetime.now() *)
  stdout : list line;  (* lines printed so far, oldest first *)
  heap : list dict     (* dict objects, addressed by allocation order *)
}.

(** ** The state-and-exception monad *)

Definition M (A : Type) : Type := world -> result A * world.

Definition ret {A} (a : A) : M A := fun w => (Ok a, w).

Definition raise {A} (e : exn) : M A := fun w => (Raised e, w).

Definition bind {A B} (m : M A) (k : A -> M B) : M B :=
  fun w => match m w with
           | (Ok a, w') => k a w'
           | (Raised e, w') => (Raised e, w')
           end.

Notation "'do' x <- m ; k" := (bind m (fun x => k))
  (at level 10, x pattern, m at level 100, k at level 200).
Notation "'do_' m ; k" := (bind m (fun _ => k))
  (at level 10, m at level 100, k at level 200).

(** [print(...)] *)
Definition print (l : line) : M unit :=
  fun w => (Ok tt, World (rng w) (clock w) (stdout w ++ [l]) (heap w)).

(** [datetime.now()] *)
Definition datetime_now : M Z :=
  fun w => (Ok (clock w O), World (rng w) (fun i => clock w (S i)) (stdout w) (heap w)).

(** A dict display [{...}] bound to a name: a new object. *)
Definition new_dict (d : dict) : M ref :=
  fun w => (Ok (length (heap w)), World (rng w) (clock w) (stdout w) (heap w ++ [d])).

(** [d.update(other)]: the keys of [other] overwrite those of [d], in place. *)
Definition dict_update (l : ref) (other : dict) : M unit :=
  fun w => (Ok tt, World (rng w) (clock w) (stdout w) (alter (fun d => other ∪ d) l (heap w))).

(** Reading a local variable that the loop may not have bound. *)
Definition local {A} (name : string) (v : option A) : M A :=
  match v with
  | Some a => ret a
  | None => raise (UnboundLocalError name)
  end.

(** ** The numpy functions the program calls *)

Module np.

(** [np.linspace(start, stop, num)] with the default [endpoint=True]:
    [arange(0, num) * step + start] with [step = (stop - start) / (num - 1)],
    and the last sample set to [stop]. *)
Definition linspace (start stop : R) (num : nat) : list R :=
  let div := (num - 1)%nat in
  let step := (stop - start) / IZR (Z.of_nat div) in
  let y := map (fun i => IZR (Z.of_nat i) * step + start) (seq 0 num) in
  if (1 <? num)%nat then <[div := stop]> y else y.

(** Broadcasting a scalar over an array. *)
Definition sub_s (a : list R) (s : R) : list R := map (fun x => x - s) a.
Definition div_s (a : list R) (s : R) : list R := map (fun x => x / s) a.
Definition mul_s (a : list R) (s : R) : list R := map (fun x => x * s) a.
Definition s_mul (s : R) (a : list R) : list R := map (fun x => s * x) a.
Definition s_add (s : R) (a : list R) : list R := map (fun x => s + x) a.
Definition sqr (a : list R) : list R := map (fun x => x ^ 2) a.
Definition neg (a : list R) : list R := map Ropp a.
Definition exp (a : list R) : list R := map Rtrigo_def.exp a.
Definition sqrt (a : list R) : list R := map R_sqrt.sqrt a.

(** Elementwise operations on two arrays of one shape. *)
Definition add (a b : list R) : list R := zip_with Rplus a b.
Definition sub (a b : list R) : list R := zip_with Rminus a b.
Definition mul (a b : list R) : list R := zip_with Rmult a b.

(** [a.copy()]: arrays are values here. *)
Definition copy (a : list R) : list R := a.

(** [np.random.normal(loc, scale, size)]: [size] fresh variates of the
    global generator, each [loc + scale * z] for a standard normal [z]. *)
Definition random_normal (loc scale : R) (size : nat) : M (list R) :=
  fun w => (Ok (map (fun i => loc + scale * rng w i) (seq 0 size)),
            World (fun i => rng w (size + i)%nat) (clock w) (stdout w) (heap w)).

(** [np.max(a)]; numpy refuses an empty array. *)
Definition max (a : list R) : M R :=
  match a with
  | [] => raise (ValueError "zero-size array to reduction operation maximum which has no identity")
  | x :: a' => ret (fold_left Rmax a' x)
  end.

(** The rows of a Python list of 1-D arrays, as numpy stacks them. *)
Definition rows (ms : list ndarray) : list (list R) :=
  omap (fun a => match a with vec v => Some v | _ => None end) ms.

(** [np.array(ms)] for a list of 1-D arrays; the empty list gives the empty
    1-D array. *)
Definition array (ms : list ndarray) : ndarray :=
  match ms with
  | [] => vec []
  | _ => mat (rows ms)
  end.

(** Sum of the rows (a reduction along axis 0). *)
Definition add_reduce0 (first : list R) (rest : list (list R)) : list R :=
  fold_left add rest first.

(** [np.mean(ms, axis=0)]: the rows are added up and divided by their
    number; with no row at all numpy warns and returns [nan]. *)
Definition mean (ms : list ndarray) : ndarray :=
  match rows ms with
  | [] => nan
  | r :: rs => vec (div_s (add_reduce0 r rs) (IZR (Z.of_nat (length (r :: rs)))))
  end.

(** [np.std(ms, axis=0)]: root of the mean squared deviation from the mean
    (no degrees-of-freedom correction). *)
Definition std (ms : list ndarray) : ndarray :=
  match rows ms with
  | [] => nan
  | r :: rs =>
      let n := IZR (Z.of_nat (length (r :: rs))) in
      let arrmean := div_s (add_reduce0 r rs) n in
      let x2 := fun r' => let x := sub r' arrmean in mul x x in
      vec (sqrt (div_s (add_reduce0 (x2 r) (map x2 rs)) n))
  end.

End np.

(** ** The data container *)

Module MockSpectrumData.
Record t := mk {
  wavelengths : list R;
  intensities : ndarray;
  timestamp : Z;
  integration_time_us : Z;
  metadata : ref
}.
End MockSpectrumData.

(** ** The controller *)

Module MockUVVisController.
Record t := mk {
  serial_number : option string;
  is_connected : bool;
  _default_integration_time : Z;
  wavelengths : list R
}.
End MockUVVisController.
Import MockUVVisController.

Abbreviation controller := MockUVVisController.t.

Definition __init__ (serial_number : option string) : controller :=
  {| serial_number := serial_number;
     is_connected := false;
     _default_integration_time := 100000;
     wavelengths := np.linspace 200 1100 2048 |}.

(** [connect] and [disconnect] assign to [self.is_connected]; they return
    the updated object next to their Python result. *)
Definition connect (self : controller) : M (bool * controller) :=
  do_ print (LConnected (serial_number self));
  ret (true, MockUVVisController.mk (serial_number self) true
               (_default_integration_time self) (wavelengths self)).

Definition disconnect (self : controller) : M (unit * controller) :=
  do_ print LDisconnected;
  ret (tt, MockUVVisController.mk (serial_number self) false
             (_default_integration_time self) (wavelengths self)).

Definition get_wavelengths (self : controller) : M (list R) :=
  if negb (is_connected self) then raise (RuntimeError "Spectrometer not connected")
  else ret (wavelengths self).

Definition _generate_mock_spectrum (self : controller) (spectrum_type : string)
  : M (list R) :=
  if (spectrum_type =? "reference")%string then
    let base := np.s_add 40000 (np.s_mul 10000
                  (np.exp (np.div_s (np.neg (np.sqr (np.sub_s (wavelengths self) 500))) 50000))) in
    do noise <- np.random_normal 0 500 (length (wavelengths self));
    ret (np.add base noise)
  else
    let base := np.s_add 40000 (np.s_mul 10000
                  (np.exp (np.div_s (np.neg (np.sqr (np.sub_s (wavelengths self) 500))) 50000))) in
    let absorption1 := np.s_mul (-15000)
                  (np.exp (np.div_s (np.neg (np.sqr (np.sub_s (wavelengths self) 450))) 500)) in
    let absorption2 := np.s_mul (-8000)
                  (np.exp (np.div_s (np.neg (np.sqr (np.sub_s (wavelengths self) 650))) 800)) in
    do noise <- np.random_normal 0 500 (length (wavelengths self));
    ret (np.add (np.add (np.add base absorption1) absorption2) noise).

(** The keys [measure_spectrum] writes into the metadata. *)
Definition fixed_keys (self : controller) (correct_dark_counts correct_nonlinearity : bool)
  : dict :=
  {[ "serial_number" := from_option PyStr PyNone (serial_number self);
     "dark_corrected" := PyBool correct_dark_counts;
     "nonlinearity_corrected" := PyBool correct_nonlinearity;
     "mock" := PyBool true ]}.

Definition measure_spectrum (self : controller)
    (integration_time_us : option Z)
    (correct_dark_counts correct_nonlinearity : bool)
    (metadata : option ref)
    (spectrum_type : string) : M MockSpectrumData.t :=
  if negb (is_connected self) then raise (RuntimeError "Spectrometer not connected")
  else
    let integration_time_us :=
      default (_default_integration_time self) integration_time_us in
    do intensities <- _generate_mock_spectrum self spectrum_type;
    let intensities := np.mul_s intensities (IZR integration_time_us / 100000) in
    do metadata <- match metadata with
                   | None => new_dict ∅
                   | Some l => ret l
                   end;
    do_ dict_update metadata (fixed_keys self correct_dark_counts correct_nonlinearity);
    do peak <- np.max intensities;
    do_ print (LMeasured integration_time_us peak);
    let wavelengths' := np.copy (wavelengths self) in
    do now <- datetime_now;
    ret (MockSpectrumData.mk wavelengths' (vec intensities) now integration_time_us metadata).

(** The [for] loop of [measure_multiple_spectra]: its two loop-carried
    variables are the list [measurements] and [data], unbound at first. *)
Fixpoint measure_loop (self : controller) (remaining : nat)
    (integration_time_us : option Z) (spectrum_type : string)
    (measurements : list ndarray) (data : option MockSpectrumData.t)
  : M (list ndarray * option MockSpectrumData.t) :=
  match remaining with
  | O => ret (measurements, data)
  | S remaining' =>
      do data <- measure_spectrum self integration_time_us false false None spectrum_type;
      measure_loop self remaining' integration_time_us spectrum_type
        (measurements ++ [MockSpectrumData.intensities data]) (Some data)
  end.

Definition measure_multiple_spectra (self : controller)
    (n_measurements : Z)
    (integration_time_us : option Z)
    (average : bool)
    (spectrum_type : string) : M MockSpectrumData.t :=
  do (measurements, data) <-
     measure_loop self (Z.to_nat n_measurements) integration_time_us spectrum_type [] None;
  if average then
    let avg_intensities := np.mean measurements in
    let std_intensities := np.std measurements in
    let wavelengths' := np.copy (wavelengths self) in
    do now <- datetime_now;
    do data <- local "data" data;
    do metadata <- new_dict {[ "n_measurements" := PyInt n_measurements;
                               "std_intensities" := PyArray std_intensities;
                               "averaged" := PyBool true;
                               "mock" := PyBool true ]};
    ret (MockSpectrumData.mk wavelengths' avg_intensities now
           (MockSpectrumData.integration_time_us data) metadata)
  else
    let stacked_intensities := np.array measurements in
    let wavelengths' := np.copy (wavelengths self) in
    do now <- datetime_now;
    do data <- local "data" data;
    do metadata <- new_dict {[ "n_measurements" := PyInt n_measurements;
                               "averaged" := PyBool false;
                               "mock" := PyBool true ]};
    ret (MockSpectrumData.mk wavelengths' stacked_intensities now
           (MockSpectrumData.integration_time_us data) metadata).

Definition optimize_integration_time (self : controller)
    (target_counts : R) (max_iterations : Z) : M Z :=
  do_ print LOptimizing;
  let optimal := 120000%Z in
  do_ print (LOptimized optimal);
  ret optimal.

(** ** Instances

    The objects the class itself produces: built by [__init__], then changed
    only by [connect] and [disconnect]. *)
Inductive instance : controller -> Prop :=
| instance_init sn : instance (__init__ sn)
| instance_connect c w r c' w' :
    instance c -> connect c w = (Ok (r, c'), w') -> instance c'
| instance_disconnect c w r c' w' :
    instance c -> disconnect c w = (Ok (r, c'), w') -> instance c'.

(** The error the two guards raise. *)
Definition not_connected : exn := RuntimeError "Spectrometer not connected".

(** ** Closed forms used in the statements *)

(** The [i]-th point of a 2048-point linear axis from 200 to 1100. *)
Definition axis_point (i : nat) : R := 200 + IZR (Z.of_nat i) * (900 / 2047).

(** The lamp curve and the curve with the two absorption dips, at one
    wavelength. *)
Definition reference_shape (x : R) : R :=
  40000 + 10000 * exp (- (x - 500) ^ 2 / 50000).

Definition sample_shape (x : R) : R :=
  reference_shape x
  + -15000 * exp (- (x - 450) ^ 2 / 500)
  + -8000 * exp (- (x - 650) ^ 2 / 800).

Definition shape (spectrum_type : string) : R -> R :=
  if (spectrum_type =? "reference")%string then reference_shape else sample_shape.

(** The [j]-th noise value of one draw [normal(0, 500, size)] from the
    variates [z]. *)
Definition noise (z : nat -> R) (j : nat) : R := 0 + 500 * z j.

Definition spectrum_of (axis : list R) (spectrum_type : string) (z : nat -> R) : list R :=
  imap (fun j x => shape spectrum_type x + noise z j) axis.

(** The world after one call of [_generate_mock_spectrum] on an axis of
    [size] points: the generator has moved on by [size] variates. *)
Definition drawn (size : nat) (w : world) : world :=
  World (fun i => rng w (size + i)%nat) (clock w) (stdout w) (heap w).

Definition peak_of (a : list R) : R :=
  match a with
  | [] => 0
  | x :: a' => fold_left Rmax a' x
  end.

Definition as_vec (a : ndarray) : list R :=
  match a with
  | vec v => v
  | _ => []
  end.

Definition Rsum (l : list R) : R := fold_right Rplus 0 l.

(** The [j]-th intensity of each measurement of a series. *)
Definition column (j : nat) (ds : list MockSpectrumData.t) : list R :=
  map (fun d => nth j (as_vec (MockSpectrumData.intensities d)) 0) ds.

(** The intensities one measurement returns: the synthesized spectrum
    scaled by the exposure, relative to 100000 microseconds. *)
Definition scaled (c : controller) (t : option Z) (spectrum_type : string) (w : world)
  : list R :=
  np.mul_s (spectrum_of (wavelengths c) spectrum_type (rng w))
           (IZR (default (_default_integration_time c) t) / 100000).

(** What every sub-measurement of a connected instance looks like. *)
Definition sub_shape (c : controller) (t : option Z) (d : MockSpectrumData.t) : Prop :=
  length (as_vec (MockSpectrumData.intensities d)) = length (wavelengths c) /\
  MockSpectrumData.intensities d = vec (as_vec (MockSpectrumData.intensities d)) /\
  MockSpectrumData.integration_time_us d = default (_default_integration_time c) t.

(** The successive results of [measure_spectrum] as the loop of
    [measure_multiple_spectra] calls it, from one world to another. *)
Inductive sub_measurements (self : controller) (integration_time_us : option Z)
    (spectrum_type : string) : world -> list MockSpectrumData.t -> world -> Prop :=
| sub_done w : sub_measurements self integration_time_us spectrum_type w [] w
| sub_step w d w1 ds w2 :
    measure_spectrum self integration_time_us false false None spectrum_type w = (Ok d, w1) ->
    sub_measurements self integration_time_us spectrum_type w1 ds w2 ->
    sub_measurements self integration_time_us spectrum_type w (d :: ds) w2.

(** The metadata of a series result. *)
Definition series_metadata (n_measurements : Z) (average : bool) (ms : list ndarray) : dict :=
  if average then
    {[ "n_measurements" := PyInt n_measurements;
       "std_intensities" := PyArray (np.std ms);
       "averaged" := PyBool true;
       "mock" := PyBool true ]}
  else
    {[ "n_measurements" := PyInt n_measurements;
       "averaged" := PyBool false;
       "mock" := PyBool true ]}.

(** The variates of the [i]-th of several successive draws of [size]
    values each. *)
Definition run_noise (w : world) (size i : nat) : nat -> R :=
  fun j => rng w (i * size + j)%nat.

(** Mean and standard deviation of a series, column by column. *)
Definition series_mean (n : Z) (ds : list MockSpectrumData.t) (size : nat) : list R :=
  map (fun j => Rsum (column j ds) / IZR n) (seq 0 size).

Definition series_std (n : Z) (ds : list MockSpectrumData.t) (size : nat) : list R :=
  map (fun j => sqrt (Rsum (map (fun x => (x - nth j (series_mean n ds size) 0)
                                          * (x - nth j (series_mean n ds size) 0))
                                (column j ds)) / IZR n))
      (seq 0 size).

(** ** The setup script: running commands and the group check

    The second half of the file is a script that inspects the machine.  The
    two functions below are the ones whose result depends on a decision the
    code makes.  The operating system is an oracle [proc] giving, for a shell
    command, its exit code and its captured output; a failure of the shell
    itself is outside the model.  Coloured output is kept as a tagged line
    rather than as escape sequences. *)

Module setup_check.

Record CompletedProcess := Completed {
  returncode : Z;
  stdout : string;
  stderr : string
}.

(** [subprocess.run(command, shell=True, capture_output=True, text=True,
    check=check)]: with [check] set, a non-zero exit code raises
    [CalledProcessError], which carries the same three values. *)
Definition subprocess_run (proc : string -> CompletedProcess) (command : string)
    (check : bool) : CompletedProcess + CompletedProcess :=
  let p := proc command in
  if check && negb (returncode p =? 0)%Z then inl p else inr p.

Definition run_command (proc : string -> CompletedProcess) (command : string)
    (check : bool) : bool * string * string :=
  match subprocess_run proc command check with
  | inr result => ((returncode result =? 0)%Z, stdout result, stderr result)
  | inl e => (false, stdout e, stderr e)
  end.

(** Python's [needle in hay] on strings. *)
Fixpoint contains (needle hay : string) : bool :=
  if String.prefix needle hay then true
  else match hay with
       | EmptyString => false
       | String _ hay' => contains needle hay'
       end.

Inductive out :=
| Step (step_num : Z) (description : string)
| Success (message : string)
| Warning (message : string)
| Plain (text : string)
| Bold (text : string)
| Yellow (text : string).

Definition newline : string := String (Ascii.ascii_of_nat 10) EmptyString.

(** [check_user_groups]: the result and the lines printed. *)
Definition check_user_groups (proc : string -> CompletedProcess) : bool * list out :=
  let header := Step 4 "Checking user groups" in
  let '(success, stdout, stderr) := run_command proc "groups" false in
  if success && contains "plugdev" stdout then
    (true, [header; Success "User is in 'plugdev' group"])
  else
    (false, [header;
             Warning "User is NOT in 'plugdev' group";
             Plain (newline ++ "To add yourself to the group, run:");
             Bold "sudo usermod -a -G plugdev $USER";
             Yellow "Then log out and log back in (or reboot)"]).

End setup_check.

(** ** Sample objects *)

Definition mock001 : controller := __init__ (Some "MOCK-001"%string).

Definition mock001_connected : controller :=
  MockUVVisController.mk (Some "MOCK-001"%string) true 100000 (np.linspace 200 1100 2048).

Definition quiet_world : world := World (fun _ => 0) (fun i => Z.of_nat i) [] [].

(** A world in which a caller holds one dictionary, at reference 0. *)
Definition lab_world : world :=
  World (fun _ => 0) (fun i => Z.of_nat i) [] [ {[ "operator" := PyStr "ann" ]} ].

(** ** Basic facts *)

Lemma instance_fields c :
  instance c ->
  wavelengths c = np.linspace 200 1100 2048 /\ _default_integration_time c = 100000%Z.
Proof.
  induction 1 as [sn | c w r c' w' _ IH Hrun | c w r c' w' _ IH Hrun].
  - split; reflexivity.
  - unfold connect, bind, print, ret in Hrun. injection Hrun as _ <- _. exact IH.
  - unfold disconnect, bind, print, ret in Hrun. injection Hrun as _ <- _. exact IH.
Qed.

Lemma linspace_length a b n : length (np.linspace a b n) = n.
Proof.
  unfold np.linspace. destruct (1 <? n)%nat.
  - rewrite length_insert, length_map, length_seq. reflexivity.
  - rewrite length_map, length_seq. reflexivity.
Qed.

Lemma linspace_lookup a b n i :
  (1 < n)%nat -> (i < n)%nat ->
  np.linspace a b n !! i =
    Some (if decide (i = (n - 1)%nat) then b
          else IZR (Z.of_nat i) * ((b - a) / IZR (Z.of_nat (n - 1))) + a).
Proof.
  intros Hn Hi. unfold np.linspace.
  apply Nat.ltb_lt in Hn as Hb. rewrite Hb.
  destruct (decide (i = (n - 1)%nat)) as [-> | Hne].
  - apply list_lookup_insert_eq. rewrite length_map, length_seq. lia.
  - rewrite list_lookup_insert_ne by congruence.
    rewrite list_lookup_fmap, lookup_seq_lt by lia. reflexivity.
Qed.

Lemma instance_axis c :
  instance c -> wavelengths c = map axis_point (seq 0 2048).
Proof.
  intros Hc. destruct (instance_fields c Hc) as [-> _].
  apply list_eq. intros i.
  destruct (decide (i < 2048)%nat) as [Hi | Hi].
  - rewrite linspace_lookup by lia.
    rewrite list_lookup_fmap, lookup_seq_lt by lia. simpl.
    f_equal. unfold axis_point.
    destruct (decide (i = 2047%nat)) as [-> | _].
    + change (Z.of_nat 2047) with 2047%Z. field.
    + change (Z.of_nat 2047) with 2047%Z. field.
  - rewrite !lookup_ge_None_2; [reflexivity | |].
    + rewrite length_map, length_seq. lia.
    + rewrite linspace_length. lia.
Qed.

Lemma axis_point_lt i j : (i < j)%nat -> axis_point i < axis_point j.
Proof.
  intros Hij. unfold axis_point.
  assert (IZR (Z.of_nat i) < IZR (Z.of_nat j)) by (apply IZR_lt; lia).
  lra.
Qed.

Lemma instance_axis_nonempty c : instance c -> wavelengths c <> [].
Proof.
  intros Hc Hnil. apply (f_equal length) in Hnil.
  rewrite (instance_axis c Hc), length_map, length_seq in Hnil. discriminate.
Qed.

(** ** Running the methods *)

Lemma zip_noise_imap (f : R -> R) (g : nat -> R) (l : list R) :
  zip_with Rplus (map f l) (map g (seq 0 (length l))) = imap (fun j x => f x + g j) l.
Proof.
  assert (Hgen : forall k,
    zip_with Rplus (map f l) (map g (seq k (length l))) = imap (fun j x => f x + g (k + j)%nat) l).
  { induction l as [|x l IH]; intros k; [reflexivity|].
    cbn [length seq map zip_with imap]. rewrite Nat.add_0_r. f_equal.
    rewrite IH. apply imap_ext. intros j y _. simpl. do 2 f_equal. lia. }
  apply Hgen.
Qed.

Lemma zip_with_map_same {A} (op : R -> R -> R) (f g : A -> R) (l : list A) :
  zip_with op (map f l) (map g l) = map (fun x => op (f x) (g x)) l.
Proof.
  induction l as [|x l IH]; [reflexivity|]. simpl. f_equal. exact IH.
Qed.

Lemma generate_run c kind w :
  _generate_mock_spectrum c kind w =
    (Ok (spectrum_of (wavelengths c) kind (rng w)), drawn (length (wavelengths c)) w).
Proof.
  unfold _generate_mock_spectrum, spectrum_of, shape.
  destruct (kind =? "reference")%string;
    unfold bind, np.random_normal, ret, drawn; cbn [fst snd]; do 2 f_equal.
  - unfold np.add, np.s_add, np.s_mul, np.exp, np.div_s, np.neg, np.sqr, np.sub_s.
    rewrite !map_map.
    rewrite (zip_noise_imap (fun x => 40000 + 10000 * exp (- (x - 500) ^ 2 / 50000))
               (fun i => 0 + 500 * rng w i)).
    reflexivity.
  - unfold np.add, np.s_add, np.s_mul, np.exp, np.div_s, np.neg, np.sqr, np.sub_s.
    rewrite !map_map.
    rewrite <- (zip_noise_imap sample_shape (fun i => 0 + 500 * rng w i)).
    f_equal. unfold sample_shape, reference_shape.
    rewrite !zip_with_map_same. reflexivity.
Qed.

Lemma spectrum_of_length axis kind z : length (spectrum_of axis kind z) = length axis.
Proof. unfold spectrum_of. apply length_imap. Qed.

Lemma max_run (a : list R) w : a <> [] -> np.max a w = (Ok (peak_of a), w).
Proof. destruct a as [|x a]; [congruence | reflexivity]. Qed.

(** One successful measurement, spelled out: the record returned and the
    world left behind. *)
Lemma measure_run c t dark nonlin md kind w :
  is_connected c = true -> wavelengths c <> [] ->
  measure_spectrum c t dark nonlin md kind w =
    (Ok (MockSpectrumData.mk (wavelengths c) (vec (scaled c t kind w)) (clock w 0)
           (default (_default_integration_time c) t) (default (length (heap w)) md)),
     World (fun i => rng w (length (wavelengths c) + i)%nat)
           (fun i => clock w (S i))
           (stdout w ++ [LMeasured (default (_default_integration_time c) t)
                           (peak_of (scaled c t kind w))])
           (alter (fun d => fixed_keys c dark nonlin ∪ d) (default (length (heap w)) md)
              (match md with None => heap w ++ [∅] | Some _ => heap w end))).
Proof.
  intros Hconn Hne.
  set (t' := default (_default_integration_time c) t).
  set (ys := scaled c t kind w).
  assert (Hys : ys <> []).
  { intros Hnil. apply (f_equal length) in Hnil. unfold ys, scaled, np.mul_s in Hnil.
    rewrite length_map, spectrum_of_length in Hnil.
    destruct (wavelengths c); [congruence | discriminate]. }
  unfold measure_spectrum. rewrite Hconn. cbn [negb].
  unfold bind at 1. rewrite generate_run.
  fold t'. change (np.mul_s _ (IZR t' / 100000)) with ys.
  destruct md as [l0|]; cbn [default from_option];
    unfold bind, ret, new_dict, dict_update, print, datetime_now, drawn, np.copy;
    cbn [rng clock stdout heap]; rewrite (max_run ys _ Hys); reflexivity.
Qed.

Lemma measure_disconnected c t dark nonlin md kind w :
  is_connected c = false ->
  measure_spectrum c t dark nonlin md kind w = (Raised not_connected, w).
Proof. intros Hc. unfold measure_spectrum. rewrite Hc. reflexivity. Qed.

(** ** Sums of rows *)

Lemma seq_tabulate (r : list R) : r = map (fun j => nth j r 0) (seq 0 (length r)).
Proof.
  apply list_eq. intros j. rewrite list_lookup_fmap.
  destruct (decide (j < length r)%nat) as [Hj | Hj].
  - rewrite lookup_seq_lt by lia. simpl.
    destruct (lookup_lt_is_Some_2 r j Hj) as [x Hx].
    rewrite Hx. f_equal. symmetry. apply nth_lookup_Some. exact Hx.
  - rewrite lookup_seq_ge by lia. apply lookup_ge_None_2. lia.
Qed.

Lemma nth_zip_with (op : R -> R -> R) (a b : list R) j :
  (j < length a)%nat -> (j < length b)%nat ->
  nth j (zip_with op a b) 0 = op (nth j a 0) (nth j b 0).
Proof.
  intros Ha Hb.
  destruct (lookup_lt_is_Some_2 a j Ha) as [x Hx].
  destruct (lookup_lt_is_Some_2 b j Hb) as [y Hy].
  rewrite (nth_lookup_Some a j 0 x Hx), (nth_lookup_Some b j 0 y Hy).
  apply nth_lookup_Some. rewrite lookup_zip_with, Hx. simpl. rewrite Hy. reflexivity.
Qed.

Lemma zip_with_same_length (op : R -> R -> R) (a b : list R) L :
  length a = L -> length b = L -> length (zip_with op a b) = L.
Proof. intros Ha Hb. rewrite length_zip_with. lia. Qed.

(** Adding up rows of one length [L] gives, at each column, the sum of that
    column. *)
Lemma add_reduce0_columns L r rs :
  Forall (fun r' => length r' = L) (r :: rs) ->
  np.add_reduce0 r rs = map (fun j => Rsum (map (fun r' => nth j r' 0) (r :: rs))) (seq 0 L).
Proof.
  revert r. induction rs as [|r1 rs IH]; intros r Hall.
  - apply Forall_cons_1 in Hall as [Hr _]. unfold np.add_reduce0. simpl.
    rewrite (seq_tabulate r) at 1. rewrite Hr.
    apply map_ext. intros j. lra.
  - apply Forall_cons_1 in Hall as [Hr Hall].
    pose proof Hall as Hall'. apply Forall_cons_1 in Hall' as [Hr1 Hrs].
    change (np.add_reduce0 r (r1 :: rs)) with (np.add_reduce0 (np.add r r1) rs).
    rewrite IH.
    + apply map_ext_in. intros j Hj. apply in_seq in Hj. cbn [map Rsum fold_right].
      unfold np.add. rewrite nth_zip_with by lia. lra.
    + apply Forall_cons_2; [|exact Hrs]. apply zip_with_same_length; assumption.
Qed.


(** ** Mean and standard deviation along axis 0, column by column *)

Lemma mean_columns L ms r rs :
  np.rows ms = r :: rs ->
  Forall (fun r' => length r' = L) (r :: rs) ->
  np.mean ms =
    vec (map (fun j => Rsum (map (fun r' => nth j r' 0) (r :: rs))
                       / IZR (Z.of_nat (length (r :: rs))))
             (seq 0 L)).
Proof.
  intros Hrows Hall. unfold np.mean. rewrite Hrows.
  rewrite (add_reduce0_columns L) by exact Hall.
  unfold np.div_s. rewrite map_map. reflexivity.
Qed.

Lemma std_columns L ms r rs :
  np.rows ms = r :: rs ->
  Forall (fun r' => length r' = L) (r :: rs) ->
  let n := IZR (Z.of_nat (length (r :: rs))) in
  let m := fun j => Rsum (map (fun r' => nth j r' 0) (r :: rs)) / n in
  np.std ms =
    vec (map (fun j => sqrt (Rsum (map (fun r' => (nth j r' 0 - m j) * (nth j r' 0 - m j))
                                       (r :: rs)) / n))
             (seq 0 L)).
Proof.
  intros Hrows Hall n m. unfold np.std. rewrite Hrows. cbv zeta. fold n.
  set (arrmean := np.div_s (np.add_reduce0 r rs) n).
  assert (Hmean : arrmean = map m (seq 0 L)).
  { unfold arrmean. rewrite (add_reduce0_columns L) by exact Hall.
    unfold np.div_s. rewrite map_map. reflexivity. }
  assert (Hlen : length arrmean = L).
  { rewrite Hmean, length_map, length_seq. reflexivity. }
  set (x2 := fun r' : list R => np.mul (np.sub r' arrmean) (np.sub r' arrmean)).
  change (x2 r :: map x2 rs) with (map x2 (r :: rs)).
  assert (Hall2 : Forall (fun r' => length r' = L) (map x2 (r :: rs))).
  { apply Forall_fmap. eapply Forall_impl; [exact Hall|]. intros r' Hr'. simpl.
    unfold x2, np.mul, np.sub. repeat apply zip_with_same_length; assumption. }
  change (np.mul (np.sub r arrmean) (np.sub r arrmean)) with (x2 r).
  pose proof (add_reduce0_columns L (x2 r) (map x2 rs) Hall2) as Hsum.
  rewrite Hsum. unfold np.sqrt, np.div_s. rewrite !map_map. f_equal.
  apply map_ext_in. intros j Hj. apply in_seq in Hj. do 2 f_equal.
  change (x2 r :: map x2 rs) with (map x2 (r :: rs)). rewrite map_map.
  f_equal. apply map_ext_in. intros r' Hr'.
  assert (Hr'len : length r' = L).
  { rewrite Forall_forall in Hall. apply Hall. apply list_elem_of_In. exact Hr'. }
  assert (Hmj : nth j arrmean 0 = m j).
  { rewrite Hmean. apply nth_lookup_Some.
    rewrite list_lookup_fmap, lookup_seq_lt by lia. reflexivity. }
  unfold x2, np.mul, np.sub.
  rewrite nth_zip_with by (rewrite (zip_with_same_length _ _ _ L); [lia | assumption..]).
  rewrite nth_zip_with by lia. rewrite Hmj. reflexivity.
Qed.

(** ** The measurement loop *)

Lemma sub_measurements_shape c t kind w ds w' :
  is_connected c = true -> wavelengths c <> [] ->
  sub_measurements c t kind w ds w' -> Forall (sub_shape c t) ds.
Proof.
  intros Hconn Hne. induction 1 as [w | w d w1 ds w2 Hrun _ IH].
  - constructor.
  - constructor; [|exact IH].
    rewrite (measure_run c t false false None kind w Hconn Hne) in Hrun.
    injection Hrun as <- _. unfold sub_shape. cbn.
    unfold scaled, np.mul_s. rewrite length_map, spectrum_of_length. auto.
Qed.

Lemma rows_of_series c t ds :
  Forall (sub_shape c t) ds ->
  np.rows (map MockSpectrumData.intensities ds) =
    map (fun d => as_vec (MockSpectrumData.intensities d)) ds.
Proof.
  induction 1 as [|d ds [_ [Hvec _]] _ IH]; [reflexivity|].
  unfold np.rows in *. cbn [map omap list_omap]. rewrite Hvec at 1. cbn.
  rewrite IH. reflexivity.
Qed.

(** The loop of a connected instance runs to its end: it performs exactly
    [n] sub-measurements, appends their intensities, and leaves the last
    one in [data]. *)
Lemma measure_loop_run c t kind :
  is_connected c = true -> wavelengths c <> [] ->
  forall n ms data w, exists ds w',
    sub_measurements c t kind w ds w' /\ length ds = n /\
    measure_loop c n t kind ms data w =
      (Ok (ms ++ map MockSpectrumData.intensities ds, from_option Some data (last ds)), w').
Proof.
  intros Hconn Hne. induction n as [|n IH]; intros ms data w.
  - exists [], w. split; [constructor|]. split; [reflexivity|].
    cbn. rewrite app_nil_r. reflexivity.
  - pose proof (measure_run c t false false None kind w Hconn Hne) as Hrun.
    match type of Hrun with _ = (Ok ?d0, ?w0) =>
      set (d := d0) in *; set (w1 := w0) in * end.
    destruct (IH (ms ++ [MockSpectrumData.intensities d]) (Some d) w1)
      as (ds & w' & Hsub & Hlen & Hloop).
    exists (d :: ds), w'. split; [econstructor; eassumption|].
    split; [simpl; congruence|].
    cbn [measure_loop]. unfold bind at 1. rewrite Hrun, Hloop.
    rewrite <- app_assoc. cbn [app map]. do 3 f_equal.
    destruct ds as [|d' ds]; [reflexivity|].
    rewrite last_cons_cons. destruct (last (d' :: ds)) eqn:Hlast; [reflexivity|].
    apply last_None in Hlast. discriminate.
Qed.

Lemma measure_loop_disconnected c t kind n ms data w :
  is_connected c = false ->
  measure_loop c (S n) t kind ms data w = (Raised not_connected, w).
Proof.
  intros Hc. cbn [measure_loop]. unfold bind.
  rewrite (measure_disconnected c t false false None kind w Hc). reflexivity.
Qed.

(** A series of at least one measurement on a connected instance, spelled
    out. *)
Lemma series_run c n t avg kind w :
  is_connected c = true -> wavelengths c <> [] -> (1 <= n)%Z ->
  exists ds w1 dlast,
    sub_measurements c t kind w ds w1 /\ length ds = Z.to_nat n /\ last ds = Some dlast /\
    measure_multiple_spectra c n t avg kind w =
      (Ok (MockSpectrumData.mk (wavelengths c)
             (if avg then np.mean (map MockSpectrumData.intensities ds)
              else np.array (map MockSpectrumData.intensities ds))
             (clock w1 0) (MockSpectrumData.integration_time_us dlast) (length (heap w1))),
       World (rng w1) (fun i => clock w1 (S i)) (stdout w1)
             (heap w1 ++ [series_metadata n avg (map MockSpectrumData.intensities ds)])).
Proof.
  intros Hconn Hne Hn.
  destruct (measure_loop_run c t kind Hconn Hne (Z.to_nat n) [] None w)
    as (ds & w1 & Hsub & Hlen & Hloop).
  destruct (last ds) as [dlast|] eqn:Hlast.
  2:{ apply last_None in Hlast. subst ds. simpl in Hlen. lia. }
  exists ds, w1, dlast. repeat split; try assumption.
  unfold measure_multiple_spectra. unfold bind at 1. rewrite Hloop.
  cbn [app from_option]. unfold series_metadata.
  destruct avg; reflexivity.
Qed.

Lemma series_disconnected c n t avg kind w :
  is_connected c = false -> (1 <= n)%Z ->
  measure_multiple_spectra c n t avg kind w = (Raised not_connected, w).
Proof.
  intros Hc Hn. unfold measure_multiple_spectra. unfold bind at 1.
  destruct (Z.to_nat n) as [|k] eqn:Hk; [lia|].
  rewrite (measure_loop_disconnected c t kind k [] None w Hc). reflexivity.
Qed.

(** With no measurement to make, the loop leaves [data] unbound and the
    result cannot be built, connected or not. *)
Lemma series_unbound c n t avg kind w :
  (n <= 0)%Z ->
  fst (measure_multiple_spectra c n t avg kind w) = Raised (UnboundLocalError "data").
Proof.
  intros Hn. unfold measure_multiple_spectra. unfold bind at 1.
  replace (Z.to_nat n) with O by lia. cbn [measure_loop ret].
  destruct avg; reflexivity.
Qed.

Lemma spectrum_of_ext axis kind (z z' : nat -> R) :
  (forall j, z j = z' j) -> spectrum_of axis kind z = spectrum_of axis kind z'.
Proof.
  intros Hz. unfold spectrum_of, noise. apply imap_ext. intros j x _. simpl.
  rewrite Hz. reflexivity.
Qed.

(** What the sub-measurements of a series are and what they do to the
    world: run [i] draws the [i]-th block of variates, prints one line,
    reads the clock once and creates one dictionary. *)
Lemma sub_measurements_trace c t kind w ds w' :
  is_connected c = true -> wavelengths c <> [] ->
  sub_measurements c t kind w ds w' ->
  map MockSpectrumData.intensities ds =
    map (fun i => vec (np.mul_s
                         (spectrum_of (wavelengths c) kind
                            (run_noise w (length (wavelengths c)) i))
                         (IZR (default (_default_integration_time c) t) / 100000)))
        (seq 0 (length ds)) /\
  (forall i, rng w' i = rng w (length ds * length (wavelengths c) + i)%nat) /\
  (forall i, clock w' i = clock w (length ds + i)%nat) /\
  stdout w' = stdout w ++
    map (fun d => LMeasured (default (_default_integration_time c) t)
                    (peak_of (as_vec (MockSpectrumData.intensities d)))) ds /\
  length (heap w') = (length (heap w) + length ds)%nat /\
  (forall l, (l < length (heap w))%nat -> heap w' !! l = heap w !! l).
Proof.
  intros Hc Hne. induction 1 as [w | w d w1 ds w2 Hrun _ IH].
  - cbn. rewrite app_nil_r. repeat split; try reflexivity. lia.
  - rewrite (measure_run c t false false None kind w Hc Hne) in Hrun.
    injection Hrun as <- <-.
    destruct IH as (Hint & Hrng & Hclock & Hout & Hlen & Hold).
    cbn [rng clock stdout heap default from_option Datatypes.id] in *.
    split; [|split; [|split; [|split; [|split]]]].
    + cbn [map length seq MockSpectrumData.intensities]. apply (f_equal2 cons).
      * reflexivity.
      * rewrite Hint, <- fmap_S_seq. rewrite <- list_fmap_compose.
        apply map_ext. intros i. simpl. do 2 f_equal.
        apply spectrum_of_ext. intros j. unfold run_noise. cbn [rng].
        f_equal. lia.
    + intros i. rewrite Hrng. cbn [length]. f_equal. lia.
    + intros i. rewrite Hclock. cbn [length]. f_equal.
    + rewrite Hout. cbn [map MockSpectrumData.intensities as_vec].
      rewrite <- app_assoc. reflexivity.
    + rewrite Hlen, length_alter, length_app. cbn [length]. lia.
    + intros l Hl. rewrite Hold.
      * rewrite list_lookup_alter_ne by lia. apply lookup_app_l. exact Hl.
      * rewrite length_alter, length_app. lia.
Qed.

(** The two-state lifecycle: [connect] always leads to the connected state,
    [disconnect] to the disconnected one, and both keep the object an
    instance. *)
Lemma connect_disconnect_lifecycle c w :
  instance c ->
  exists c1 w1 c2 w2,
    connect c w = (Ok (true, c1), w1) /\ is_connected c1 = true /\ instance c1 /\
    disconnect c1 w1 = (Ok (tt, c2), w2) /\ is_connected c2 = false /\ instance c2.
Proof.
  intros Hinst.
  set (c1 := MockUVVisController.mk (serial_number c) true
               (_default_integration_time c) (wavelengths c)).
  set (w1 := World (rng w) (clock w) (stdout w ++ [LConnected (serial_number c)]) (heap w)).
  set (c2 := MockUVVisController.mk (serial_number c) false
               (_default_integration_time c) (wavelengths c)).
  set (w2 := World (rng w) (clock w) (stdout w1 ++ [LDisconnected]) (heap w)).
  assert (Hon : connect c w = (Ok (true, c1), w1)) by reflexivity.
  assert (Hoff : disconnect c1 w1 = (Ok (tt, c2), w2)) by reflexivity.
  pose proof (instance_connect c w true c1 w1 Hinst Hon) as Hinst1.
  pose proof (instance_disconnect c1 w1 tt c2 w2 Hinst1 Hoff) as Hinst2.
  exists c1, w1, c2, w2. repeat split; assumption.
Qed.

Lemma mock001_connected_instance : instance mock001_connected.
Proof.
  apply (instance_connect mock001 quiet_world true mock001_connected
           (World (rng quiet_world) (clock quiet_world)
                  [LConnected (Some "MOCK-001"%string)] (heap quiet_world))).
  - apply instance_init.
  - reflexivity.
Qed.

(** * The specification's claims *)

(** ** Connection guard *)

(** C1, as the claim states it, fails: a series of zero measurements on a
    disconnected instance never reaches the guard inside [measure_spectrum];
    it ends in the unbound-variable error, not in the not-connected error. *)
Lemma series_of_zero_skips_guard :
  is_connected mock001 = false /\
  fst (measure_multiple_spectra mock001 0 None true "sample" quiet_world)
    = Raised (UnboundLocalError "data") /\
  fst (measure_multiple_spectra mock001 0 None true "sample" quiet_world)
    <> Raised not_connected.
Proof.
  split; [reflexivity|]. split; [reflexivity|].
  rewrite series_unbound by lia. discriminate.
Qed.

(** C1 (amended): on a disconnected instance [get_wavelengths],
    [measure_spectrum] and, for every count of at least one and either value
    of [average], [measure_multiple_spectra] raise the not-connected error
    and leave the world as it was; on a connected instance none of the three
    raises that error, whatever the count. *)
Theorem not_connected_guard c w t dark nonlin md kind avg :
  instance c ->
  (is_connected c = false ->
     get_wavelengths c w = (Raised not_connected, w) /\
     measure_spectrum c t dark nonlin md kind w = (Raised not_connected, w) /\
     forall n, (1 <= n)%Z ->
       measure_multiple_spectra c n t avg kind w = (Raised not_connected, w)) /\
  (is_connected c = true ->
     fst (get_wavelengths c w) <> Raised not_connected /\
     fst (measure_spectrum c t dark nonlin md kind w) <> Raised not_connected /\
     forall n, fst (measure_multiple_spectra c n t avg kind w) <> Raised not_connected).
Proof.
  intros Hinst. pose proof (instance_axis_nonempty c Hinst) as Hne. split; intros Hc.
  - split; [|split].
    + unfold get_wavelengths. rewrite Hc. reflexivity.
    + apply measure_disconnected. exact Hc.
    + intros n Hn. apply series_disconnected; assumption.
  - split; [|split].
    + unfold get_wavelengths. rewrite Hc. discriminate.
    + rewrite (measure_run c t dark nonlin md kind w Hc Hne). discriminate.
    + intros n. destruct (Z_le_gt_dec 1 n) as [Hn | Hn].
      * destruct (series_run c n t avg kind w Hc Hne Hn) as (ds & w1 & dl & _ & _ & _ & Hrun).
        rewrite Hrun. discriminate.
      * rewrite series_unbound by lia. discriminate.
Qed.

Lemma not_connected_guard_witness :
  instance mock001 /\ is_connected mock001 = false /\
  measure_multiple_spectra mock001 3 None true "sample" quiet_world
    = (Raised not_connected, quiet_world) /\
  fst (measure_multiple_spectra mock001_connected 3 None true "sample" quiet_world)
    <> Raised not_connected.
Proof.
  split; [apply instance_init|]. split; [reflexivity|]. split.
  - destruct (not_connected_guard mock001 quiet_world None false false None "sample" true
                (instance_init _)) as [Hoff _].
    destruct (Hoff eq_refl) as (_ & _ & Hseries). apply Hseries. lia.
  - destruct (not_connected_guard mock001_connected quiet_world None false false None
                "sample" true mock001_connected_instance) as [_ Hon].
    destruct (Hon eq_refl) as (_ & _ & Hseries). apply Hseries.
Defined.

(** ** Measurement count *)

(** C2 (the code departs from the claim): with a count of zero the loop body
    never runs, [data] stays unbound, and building the result raises
    [UnboundLocalError] for either value of [average]; no argument check
    rejects the count. *)
Theorem series_of_zero_raises_unbound_local c t avg kind w :
  fst (measure_multiple_spectra c 0 t avg kind w) = Raised (UnboundLocalError "data").
Proof. apply series_unbound. lia. Qed.

(** ** The stub optimiser *)

(** C9: [optimize_integration_time] returns 120000 for every instance,
    connected or not, and for all arguments. *)
Theorem optimize_integration_time_constant c target_counts max_iterations w :
  fst (optimize_integration_time c target_counts max_iterations w) = Ok 120000%Z.
Proof. reflexivity. Qed.

(** ** The wavelength axis *)

(** C5: on a connected instance [get_wavelengths] returns, in every world and
    without changing it, one and the same sequence of 2048 values, from 200
    to 1100, evenly spaced by 900/2047 and strictly increasing. *)
Theorem get_wavelengths_axis c :
  instance c -> is_connected c = true ->
  exists axis,
    (forall w, get_wavelengths c w = (Ok axis, w)) /\
    length axis = 2048%nat /\
    head axis = Some 200 /\
    last axis = Some 1100 /\
    axis = map (fun i => 200 + IZR (Z.of_nat i) * (900 / 2047)) (seq 0 2048) /\
    (forall i j x y, (i < j)%nat -> axis !! i = Some x -> axis !! j = Some y -> x < y).
Proof.
  intros Hinst Hc. exists (wavelengths c).
  pose proof (instance_axis c Hinst) as Haxis.
  assert (Hlook : forall i, (i < 2048)%nat -> wavelengths c !! i = Some (axis_point i)).
  { intros i Hi. rewrite Haxis, list_lookup_fmap, lookup_seq_lt by lia. reflexivity. }
  assert (Hlen : length (wavelengths c) = 2048%nat).
  { rewrite Haxis, length_map, length_seq. reflexivity. }
  split; [|split; [|split; [|split; [|split]]]].
  - intros w. unfold get_wavelengths. rewrite Hc. reflexivity.
  - exact Hlen.
  - rewrite head_lookup, Hlook by lia. f_equal. unfold axis_point.
    change (Z.of_nat 0) with 0%Z. lra.
  - rewrite last_lookup, Hlen, Hlook by (simpl; lia). f_equal. unfold axis_point.
    change (Z.of_nat (Nat.pred 2048)) with 2047%Z. field.
  - exact Haxis.
  - intros i j x y Hij Hx Hy.
    assert (Hj : (j < 2048)%nat) by (apply lookup_lt_Some in Hy; lia).
    rewrite Hlook in Hx, Hy by lia. injection Hx as <-. injection Hy as <-.
    apply axis_point_lt. exact Hij.
Qed.

Lemma get_wavelengths_axis_witness :
  exists axis,
    get_wavelengths mock001_connected quiet_world = (Ok axis, quiet_world) /\
    length axis = 2048%nat /\ head axis = Some 200 /\ last axis = Some 1100.
Proof.
  destruct (get_wavelengths_axis mock001_connected mock001_connected_instance eq_refl)
    as (axis & Hget & Hlen & Hfirst & Hlast & _).
  exists axis. auto.
Defined.

(** ** Spectrum synthesis *)

(** C6: at every point [x] of the axis, numbered [j], the synthesized value
    is the lamp curve (for "reference") or the lamp curve with the two
    absorption dips (for "sample") plus the [j]-th value of one fresh draw
    [normal(0, 500)] of the generator, which moves on by one variate per
    axis point. *)
Theorem generate_mock_spectrum_shape c w :
  _generate_mock_spectrum c "reference" w =
    (Ok (imap (fun j x => 40000 + 10000 * exp (- (x - 500) ^ 2 / 50000)
                          + (0 + 500 * rng w j))
              (wavelengths c)),
     drawn (length (wavelengths c)) w) /\
  _generate_mock_spectrum c "sample" w =
    (Ok (imap (fun j x => 40000 + 10000 * exp (- (x - 500) ^ 2 / 50000)
                          + -15000 * exp (- (x - 450) ^ 2 / 500)
                          + -8000 * exp (- (x - 650) ^ 2 / 800)
                          + (0 + 500 * rng w j))
              (wavelengths c)),
     drawn (length (wavelengths c)) w).
Proof. split; rewrite generate_run; reflexivity. Qed.

(** ** Exposure scaling *)

(** C4: a measurement on a connected instance returns the synthesized
    spectrum of its kind with every value multiplied by [t / 100000], where
    [t] is the given integration time or, when omitted, the stored default
    100000; for one and the same noise draw, the intensities at 200000 are
    twice those at 100000. *)
Theorem measure_spectrum_scaling c t dark nonlin md kind w :
  instance c -> is_connected c = true ->
  exists s ws d w',
    _generate_mock_spectrum c kind w = (Ok s, ws) /\
    measure_spectrum c t dark nonlin md kind w = (Ok d, w') /\
    MockSpectrumData.intensities d =
      vec (map (fun x => x * (IZR (default 100000%Z t) / 100000)) s) /\
    MockSpectrumData.integration_time_us d = default 100000%Z t /\
    exists d1 w1 d2 w2 ys,
      measure_spectrum c (Some 100000%Z) dark nonlin md kind w = (Ok d1, w1) /\
      measure_spectrum c (Some 200000%Z) dark nonlin md kind w = (Ok d2, w2) /\
      MockSpectrumData.intensities d1 = vec ys /\
      MockSpectrumData.intensities d2 = vec (map (fun y => 2 * y) ys).
Proof.
  intros Hinst Hc.
  pose proof (instance_axis_nonempty c Hinst) as Hne.
  destruct (instance_fields c Hinst) as [_ Hdef].
  eexists _, _, _, _. split; [apply generate_run|].
  split; [apply (measure_run c t dark nonlin md kind w Hc Hne)|].
  cbn [MockSpectrumData.intensities MockSpectrumData.integration_time_us].
  unfold scaled at 1, np.mul_s. rewrite Hdef. split; [reflexivity|]. split; [reflexivity|].
  eexists _, _, _, _, _.
  split; [apply (measure_run c (Some 100000%Z) dark nonlin md kind w Hc Hne)|].
  split; [apply (measure_run c (Some 200000%Z) dark nonlin md kind w Hc Hne)|].
  cbn [MockSpectrumData.intensities]. split; [reflexivity|].
  f_equal. unfold scaled, np.mul_s. cbn [default from_option Datatypes.id]. rewrite map_map.
  apply map_ext. intros x. lra.
Qed.

Lemma measure_spectrum_scaling_witness :
  exists d w',
    measure_spectrum mock001_connected None false false None "sample" quiet_world
      = (Ok d, w') /\
    MockSpectrumData.integration_time_us d = 100000%Z.
Proof.
  destruct (measure_spectrum_scaling mock001_connected None false false None "sample"
              quiet_world mock001_connected_instance eq_refl)
    as (s & ws & d & w' & _ & Hrun & _ & Htime & _).
  exists d, w'. split; [exact Hrun | exact Htime].
Defined.

(** ** Metadata *)

Lemma fixed_keys_lookup c dark nonlin :
  fixed_keys c dark nonlin !! "serial_number" = Some (from_option PyStr PyNone (serial_number c)) /\
  fixed_keys c dark nonlin !! "dark_corrected" = Some (PyBool dark) /\
  fixed_keys c dark nonlin !! "nonlinearity_corrected" = Some (PyBool nonlin) /\
  fixed_keys c dark nonlin !! "mock" = Some (PyBool true).
Proof. unfold fixed_keys. repeat split; by simplify_map_eq. Qed.

(** C8: when the caller supplies a mapping, the metadata of the measurement
    is that mapping merged with the four fixed keys (serial number, the two
    correction flags as passed, "mock" set true); a key present in both
    carries the fixed value. *)
Theorem measure_spectrum_metadata c t dark nonlin l m kind w :
  instance c -> is_connected c = true -> heap w !! l = Some m ->
  exists d w' m',
    measure_spectrum c t dark nonlin (Some l) kind w = (Ok d, w') /\
    heap w' !! MockSpectrumData.metadata d = Some m' /\
    m' = fixed_keys c dark nonlin ∪ m /\
    m' !! "serial_number" = Some (from_option PyStr PyNone (serial_number c)) /\
    m' !! "dark_corrected" = Some (PyBool dark) /\
    m' !! "nonlinearity_corrected" = Some (PyBool nonlin) /\
    m' !! "mock" = Some (PyBool true) /\
    forall k, m' !! k = match fixed_keys c dark nonlin !! k with
                        | Some v => Some v
                        | None => m !! k
                        end.
Proof.
  intros Hinst Hc Hm.
  pose proof (instance_axis_nonempty c Hinst) as Hne.
  destruct (fixed_keys_lookup c dark nonlin) as (Hsn & Hdark & Hnl & Hmock).
  eexists _, _, (fixed_keys c dark nonlin ∪ m).
  split; [apply (measure_run c t dark nonlin (Some l) kind w Hc Hne)|].
  cbn [MockSpectrumData.metadata heap default from_option Datatypes.id].
  split; [rewrite list_lookup_alter_eq, Hm; reflexivity|].
  split; [reflexivity|].
  repeat (split; [apply lookup_union_Some_l; assumption|]).
  intros k. rewrite lookup_union.
  destruct (fixed_keys c dark nonlin !! k), (m !! k); reflexivity.
Qed.

Lemma measure_spectrum_metadata_witness :
  exists d w' m',
    measure_spectrum mock001_connected None true false (Some O) "sample" lab_world
      = (Ok d, w') /\
    heap w' !! MockSpectrumData.metadata d = Some m' /\
    m' !! "mock" = Some (PyBool true).
Proof.
  destruct (measure_spectrum_metadata mock001_connected None true false O
              {[ "operator" := PyStr "ann" ]} "sample" lab_world
              mock001_connected_instance eq_refl eq_refl)
    as (d & w' & m' & Hrun & Hheap & _ & _ & _ & _ & Hmock & _).
  exists d, w', m'. auto.
Defined.

(** C7 (the code departs from the claim): the measurement returned for a
    caller-supplied mapping holds a reference to that very mapping, which the
    call has updated in place; a second measurement with the same mapping
    then changes the metadata of the first one after it was returned. *)
Theorem measure_spectrum_aliases_metadata :
  exists d1 w1 m1 d2 w2 m2,
    measure_spectrum mock001_connected None true false (Some O) "sample" lab_world
      = (Ok d1, w1) /\
    MockSpectrumData.metadata d1 = O /\
    heap lab_world !! O = Some {[ "operator" := PyStr "ann" ]} /\
    heap w1 !! O = Some m1 /\
    m1 !! "dark_corrected" = Some (PyBool true) /\
    measure_spectrum mock001_connected None false false (Some O) "sample" w1
      = (Ok d2, w2) /\
    MockSpectrumData.metadata d2 = MockSpectrumData.metadata d1 /\
    heap w2 !! MockSpectrumData.metadata d1 = Some m2 /\
    m2 !! "dark_corrected" = Some (PyBool false).
Proof.
  pose proof (instance_axis_nonempty _ mock001_connected_instance) as Hne.
  eexists _, _, _, _, _, _.
  split; [apply (measure_run mock001_connected None true false (Some O) "sample"
                   lab_world eq_refl Hne)|].
  split; [reflexivity|]. split; [reflexivity|].
  split; [reflexivity|].
  split; [apply lookup_union_Some_l; apply fixed_keys_lookup|].
  split; [apply (measure_run mock001_connected None false false (Some O) "sample"
                   _ eq_refl Hne)|].
  split; [reflexivity|]. split; [reflexivity|].
  apply lookup_union_Some_l. apply fixed_keys_lookup.
Qed.

(** ** Spectrum types *)

Lemma generate_other_kind c kind :
  kind <> "reference"%string ->
  _generate_mock_spectrum c kind = _generate_mock_spectrum c "sample".
Proof.
  intros Hk. apply String.eqb_neq in Hk.
  unfold _generate_mock_spectrum. rewrite Hk. reflexivity.
Qed.

Lemma measure_other_kind c t dark nonlin md kind :
  kind <> "reference"%string ->
  measure_spectrum c t dark nonlin md kind = measure_spectrum c t dark nonlin md "sample".
Proof.
  intros Hk. unfold measure_spectrum. rewrite (generate_other_kind c kind Hk). reflexivity.
Qed.

Lemma measure_loop_other_kind c t kind :
  kind <> "reference"%string ->
  forall n ms data w,
    measure_loop c n t kind ms data w = measure_loop c n t "sample" ms data w.
Proof.
  intros Hk. induction n as [|n IH]; intros ms data w; [reflexivity|].
  cbn [measure_loop]. rewrite (measure_other_kind c t false false None kind Hk).
  unfold bind. destruct (measure_spectrum c t false false None "sample" w) as [[d|e] w1].
  - apply IH.
  - reflexivity.
Qed.

(** C10: every spectrum type other than "reference" is treated exactly as
    "sample": the synthesized spectrum is the lamp curve with both
    absorption dips plus noise, and a measurement or a series with that type
    behaves as with "sample".  On a connected instance both succeed (a series
    for a count of at least one), so no type is rejected: the measurement's
    intensities are that sample-shaped spectrum scaled by the exposure, and
    so are the intensities of every sub-measurement of a series, of which
    the series result is the mean or the stack. *)
Theorem other_spectrum_types_are_sample c kind t dark nonlin md avg n w :
  kind <> "reference"%string ->
  fst (_generate_mock_spectrum c kind w) =
    Ok (imap (fun j x => 40000 + 10000 * exp (- (x - 500) ^ 2 / 50000)
                         + -15000 * exp (- (x - 450) ^ 2 / 500)
                         + -8000 * exp (- (x - 650) ^ 2 / 800)
                         + (0 + 500 * rng w j))
             (wavelengths c)) /\
  measure_spectrum c t dark nonlin md kind w
    = measure_spectrum c t dark nonlin md "sample" w /\
  measure_multiple_spectra c n t avg kind w
    = measure_multiple_spectra c n t avg "sample" w /\
  (instance c -> is_connected c = true ->
     (exists d w',
        measure_spectrum c t dark nonlin md kind w = (Ok d, w') /\
        MockSpectrumData.intensities d =
          vec (map (fun v => v * (IZR (default 100000%Z t) / 100000))
                 (imap (fun j x => 40000 + 10000 * exp (- (x - 500) ^ 2 / 50000)
                                   + -15000 * exp (- (x - 450) ^ 2 / 500)
                                   + -8000 * exp (- (x - 650) ^ 2 / 800)
                                   + (0 + 500 * rng w j))
                       (wavelengths c)))) /\
     ((1 <= n)%Z ->
      exists ds w1 r w',
        sub_measurements c t kind w ds w1 /\
        map MockSpectrumData.intensities ds =
          map (fun i =>
                 vec (map (fun v => v * (IZR (default 100000%Z t) / 100000))
                        (imap (fun j x =>
                                 40000 + 10000 * exp (- (x - 500) ^ 2 / 50000)
                                 + -15000 * exp (- (x - 450) ^ 2 / 500)
                                 + -8000 * exp (- (x - 650) ^ 2 / 800)
                                 + (0 + 500 * rng w (i * 2048 + j)%nat))
                              (wavelengths c))))
              (seq 0 (Z.to_nat n)) /\
        measure_multiple_spectra c n t avg kind w = (Ok r, w') /\
        MockSpectrumData.intensities r =
          (if avg then np.mean (map MockSpectrumData.intensities ds)
           else np.array (map MockSpectrumData.intensities ds)))).
Proof.
  intros Hk. split; [|split; [|split]].
  - rewrite (generate_other_kind c kind Hk), generate_run. reflexivity.
  - rewrite (measure_other_kind c t dark nonlin md kind Hk). reflexivity.
  - unfold measure_multiple_spectra, bind.
    rewrite (measure_loop_other_kind c t kind Hk). reflexivity.
  - intros Hinst Hc. pose proof (instance_axis_nonempty c Hinst) as Hne.
    destruct (instance_fields c Hinst) as [_ Hdef].
    assert (HL : length (wavelengths c) = 2048%nat).
    { rewrite (instance_axis c Hinst), length_map, length_seq. reflexivity. }
    pose proof Hk as Hkb. apply String.eqb_neq in Hkb.
    split.
    + eexists _, _. split; [apply (measure_run c t dark nonlin md kind w Hc Hne)|].
      cbn [MockSpectrumData.intensities].
      unfold scaled, np.mul_s, spectrum_of, shape. rewrite Hkb, Hdef. reflexivity.
    + intros Hn.
      destruct (series_run c n t avg kind w Hc Hne Hn)
        as (ds & w1 & dl & Hsub & Hlen & _ & Hrun).
      destruct (sub_measurements_trace c t kind w ds w1 Hc Hne Hsub) as (Hint & _).
      exists ds, w1. eexists _, _.
      split; [exact Hsub|]. split; [|split; [exact Hrun | reflexivity]].
      rewrite Hint, Hlen, Hdef, HL.
      unfold np.mul_s, spectrum_of, shape, run_noise. rewrite Hkb. reflexivity.
Qed.

Lemma other_spectrum_types_are_sample_witness :
  measure_spectrum mock001_connected None false false None "blank" quiet_world
    = measure_spectrum mock001_connected None false false None "sample" quiet_world /\
  exists r w',
    measure_multiple_spectra mock001_connected 3 None true "blank" quiet_world = (Ok r, w').
Proof.
  assert (Hk : "blank"%string <> "reference"%string) by discriminate.
  destruct (other_spectrum_types_are_sample mock001_connected "blank" None false false None
              true 3 quiet_world Hk) as (_ & Hsame & _ & Haccept).
  split; [exact Hsame|].
  destruct (Haccept mock001_connected_instance eq_refl) as [_ Hseries].
  assert (Hn : (1 <= 3)%Z) by lia.
  destruct (Hseries Hn) as (ds & w1 & r & w' & _ & _ & Hrun & _).
  exists r, w'. exact Hrun.
Defined.

(** ** Averaged series *)



(** * Further properties of the simulator *)

(** ** One measurement: the record, the heap and the log *)

(** X1: with [metadata] omitted, a measurement on a connected instance
    stores its metadata in a dictionary that did not exist before the call;
    it holds exactly the four fixed keys, and every dictionary that existed
    before the call is left as it was. *)
Theorem measure_spectrum_fresh_metadata c t dark nonlin kind w :
  instance c -> is_connected c = true ->
  exists d w',
    measure_spectrum c t dark nonlin None kind w = (Ok d, w') /\
    heap w !! MockSpectrumData.metadata d = None /\
    heap w' !! MockSpectrumData.metadata d = Some (fixed_keys c dark nonlin) /\
    length (heap w') = S (length (heap w)) /\
    forall l m, heap w !! l = Some m -> heap w' !! l = Some m.
Proof.
  intros Hinst Hc. pose proof (instance_axis_nonempty c Hinst) as Hne.
  eexists _, _.
  split; [apply (measure_run c t dark nonlin None kind w Hc Hne)|].
  cbn [MockSpectrumData.metadata heap default from_option Datatypes.id].
  split; [apply lookup_ge_None_2; lia|].
  split.
  { rewrite list_lookup_alter_eq, list_lookup_middle by reflexivity.
    cbn. rewrite (right_id_L ∅ (∪)). reflexivity. }
  split; [rewrite length_alter, length_app; simpl; lia|].
  intros l m Hl. pose proof (lookup_lt_Some _ _ _ Hl) as Hlt.
  rewrite list_lookup_alter_ne by lia. rewrite lookup_app_l by exact Hlt. exact Hl.
Qed.

Lemma measure_spectrum_fresh_metadata_witness :
  exists d w',
    measure_spectrum mock001_connected None false false None "sample" lab_world
      = (Ok d, w') /\
    heap lab_world !! MockSpectrumData.metadata d = None /\
    heap w' !! O = Some {[ "operator" := PyStr "ann" ]}.
Proof.
  destruct (measure_spectrum_fresh_metadata mock001_connected None false false "sample"
              lab_world mock001_connected_instance eq_refl)
    as (d & w' & Hrun & Hnew & _ & _ & Hold).
  exists d, w'. split; [exact Hrun|]. split; [exact Hnew|].
  apply Hold. reflexivity.
Defined.

(** X2: with a caller-supplied mapping, a measurement changes no dictionary
    but that one: the result refers to it, no dictionary is created, and
    every other dictionary is untouched. *)
Theorem measure_spectrum_frame c t dark nonlin l kind w :
  instance c -> is_connected c = true ->
  exists d w',
    measure_spectrum c t dark nonlin (Some l) kind w = (Ok d, w') /\
    MockSpectrumData.metadata d = l /\
    length (heap w') = length (heap w) /\
    forall l', l' <> l -> heap w' !! l' = heap w !! l'.
Proof.
  intros Hinst Hc. pose proof (instance_axis_nonempty c Hinst) as Hne.
  eexists _, _.
  split; [apply (measure_run c t dark nonlin (Some l) kind w Hc Hne)|].
  cbn [MockSpectrumData.metadata heap default from_option Datatypes.id].
  split; [reflexivity|]. split; [apply length_alter|].
  intros l' Hl'. apply list_lookup_alter_ne. congruence.
Qed.

Lemma measure_spectrum_frame_witness :
  exists d w',
    measure_spectrum mock001_connected None false false (Some 1%nat) "sample"
      (World (fun _ => 0) (fun i => Z.of_nat i) [] [ ∅; ∅ ]) = (Ok d, w') /\
    heap w' !! O = Some ∅.
Proof.
  destruct (measure_spectrum_frame mock001_connected None false false 1%nat "sample"
              (World (fun _ => 0) (fun i => Z.of_nat i) [] [ ∅; ∅ ])
              mock001_connected_instance eq_refl)
    as (d & w' & Hrun & _ & _ & Hframe).
  exists d, w'. split; [exact Hrun|].
  rewrite Hframe by lia. reflexivity.
Defined.

(** X3: the record a measurement returns carries the axis that
    [get_wavelengths] returns, a one-dimensional intensity array with one
    value per axis point (2048), and the clock reading taken by the call; the
    call prints exactly one line and reads the clock once. *)
Theorem measure_spectrum_record c t dark nonlin md kind w :
  instance c -> is_connected c = true ->
  exists d w' ys peak,
    measure_spectrum c t dark nonlin md kind w = (Ok d, w') /\
    get_wavelengths c w = (Ok (MockSpectrumData.wavelengths d), w) /\
    MockSpectrumData.intensities d = vec ys /\
    length ys = 2048%nat /\
    length (MockSpectrumData.wavelengths d) = 2048%nat /\
    MockSpectrumData.timestamp d = clock w O /\
    (forall i, clock w' i = clock w (S i)) /\
    stdout w' = stdout w ++ [LMeasured (MockSpectrumData.integration_time_us d) peak].
Proof.
  intros Hinst Hc. pose proof (instance_axis_nonempty c Hinst) as Hne.
  assert (Hlen : length (wavelengths c) = 2048%nat).
  { rewrite (instance_axis c Hinst), length_map, length_seq. reflexivity. }
  eexists _, _, _, _.
  split; [apply (measure_run c t dark nonlin md kind w Hc Hne)|].
  cbn [MockSpectrumData.wavelengths MockSpectrumData.intensities
       MockSpectrumData.timestamp MockSpectrumData.integration_time_us clock stdout].
  split; [unfold get_wavelengths; rewrite Hc; reflexivity|].
  split; [reflexivity|].
  split; [unfold scaled, np.mul_s; rewrite length_map, spectrum_of_length; exact Hlen|].
  split; [exact Hlen|]. split; [reflexivity|]. split; [reflexivity|]. reflexivity.
Qed.

Lemma measure_spectrum_record_witness :
  exists d w',
    measure_spectrum mock001_connected (Some 100000%Z) false false None "reference"
      quiet_world = (Ok d, w') /\
    MockSpectrumData.timestamp d = 0%Z.
Proof.
  destruct (measure_spectrum_record mock001_connected (Some 100000%Z) false false None
              "reference" quiet_world mock001_connected_instance eq_refl)
    as (d & w' & ys & peak & Hrun & _ & _ & _ & _ & Htime & _).
  exists d, w'. split; [exact Hrun | exact Htime].
Defined.

(** ** Lifecycle *)

(** X4: from any state, [connect] succeeds and returns [True]; measuring
    then succeeds; after [disconnect], measuring and reading the axis raise
    the not-connected error again and change nothing. *)
Theorem connect_measure_disconnect c w t dark nonlin md kind :
  instance c ->
  exists c1 w1 d w2 c2 w3,
    connect c w = (Ok (true, c1), w1) /\
    measure_spectrum c1 t dark nonlin md kind w1 = (Ok d, w2) /\
    disconnect c1 w2 = (Ok (tt, c2), w3) /\
    measure_spectrum c2 t dark nonlin md kind w3 = (Raised not_connected, w3) /\
    get_wavelengths c2 w3 = (Raised not_connected, w3).
Proof.
  intros Hinst.
  destruct (connect_disconnect_lifecycle c w Hinst)
    as (c1 & w1 & c2 & w2' & Hon & Hc1 & Hinst1 & _ & _ & _).
  pose proof (instance_axis_nonempty c1 Hinst1) as Hne.
  exists c1, w1. eexists _, _, _, _.
  split; [exact Hon|].
  split; [apply (measure_run c1 t dark nonlin md kind w1 Hc1 Hne)|].
  split; [reflexivity|].
  split; [apply measure_disconnected; reflexivity|].
  reflexivity.
Qed.

Lemma connect_measure_disconnect_witness :
  exists c1 w1 d w2,
    connect mock001 quiet_world = (Ok (true, c1), w1) /\
    measure_spectrum c1 None false false None "sample" w1 = (Ok d, w2).
Proof.
  destruct (connect_measure_disconnect mock001 quiet_world None false false None "sample"
              (instance_init _))
    as (c1 & w1 & d & w2 & c2 & w3 & Hon & Hrun & _).
  exists c1, w1, d, w2. split; [exact Hon | exact Hrun].
Defined.

(** ** The synthetic curves *)

Lemma exp_nonpos_le_1 y : y <= 0 -> exp y <= 1.
Proof.
  intros [Hlt | ->].
  - left. rewrite <- exp_0. apply exp_increasing. exact Hlt.
  - right. apply exp_0.
Qed.

Lemma bump_range (x centre width : R) :
  0 < width -> 0 < exp (- (x - centre) ^ 2 / width) <= 1.
Proof.
  intros Hw. split; [apply exp_pos|]. apply exp_nonpos_le_1.
  pose proof (pow2_ge_0 (x - centre)) as Hsq.
  apply Rmult_le_reg_r with width; [exact Hw|].
  unfold Rdiv. rewrite Rmult_assoc, Rinv_l by lra. lra.
Qed.

Lemma shape_range kind x :
  17000 < shape kind x <= 50000 /\ sample_shape x < reference_shape x.
Proof.
  pose proof (bump_range x 500 50000 ltac:(lra)) as H1.
  pose proof (bump_range x 450 500 ltac:(lra)) as H2.
  pose proof (bump_range x 650 800 ltac:(lra)) as H3.
  unfold shape. destruct (kind =? "reference")%string;
    unfold sample_shape, reference_shape; lra.
Qed.

Lemma Forall2_imap_same {A} (P : R -> R -> Prop) (f g : nat -> A -> R) (l : list A) :
  (forall j x, P (f j x) (g j x)) -> Forall2 P (imap f l) (imap g l).
Proof.
  revert f g. induction l as [|x l IH]; intros f g Hfg; [constructor|].
  cbn [imap]. constructor; [apply Hfg|]. apply IH. intros j y. apply Hfg.
Qed.

(** X5: whatever the type, every synthesized value, its own noise term
    [500 * z] taken off, lies above 17000 and at most at 50000: without
    noise the simulated counts are positive and never exceed the lamp's
    peak. *)
Theorem generated_spectrum_range c kind w :
  exists s w',
    _generate_mock_spectrum c kind w = (Ok s, w') /\
    length s = length (wavelengths c) /\
    forall j v, s !! j = Some v -> 17000 < v - 500 * rng w j <= 50000.
Proof.
  eexists _, _. split; [apply generate_run|].
  split; [apply spectrum_of_length|].
  intros j v Hv. unfold spectrum_of in Hv. rewrite list_lookup_imap in Hv.
  destruct (wavelengths c !! j) as [x|]; [|discriminate Hv].
  injection Hv as <-. unfold noise.
  destruct (shape_range kind x) as [Hrange _]. lra.
Qed.

Lemma generated_spectrum_range_witness :
  exists s w',
    _generate_mock_spectrum mock001_connected "sample" quiet_world = (Ok s, w') /\
    length s = length (wavelengths mock001_connected).
Proof.
  destruct (generated_spectrum_range mock001_connected "sample" quiet_world)
    as (s & w' & Hrun & Hlen & _).
  exists s, w'. split; [exact Hrun | exact Hlen].
Defined.

(** X6: for one and the same noise draw and an integration time that is not
    negative, a "sample" measurement is at no point of the axis above the
    "reference" measurement. *)
Theorem sample_not_above_reference c t dark nonlin md w :
  instance c -> is_connected c = true -> (0 <= default 100000 t)%Z ->
  exists dr wr ds ws r s,
    measure_spectrum c t dark nonlin md "reference" w = (Ok dr, wr) /\
    measure_spectrum c t dark nonlin md "sample" w = (Ok ds, ws) /\
    MockSpectrumData.intensities dr = vec r /\
    MockSpectrumData.intensities ds = vec s /\
    Forall2 Rle s r.
Proof.
  intros Hinst Hc Ht. pose proof (instance_axis_nonempty c Hinst) as Hne.
  destruct (instance_fields c Hinst) as [_ Hdef].
  eexists _, _, _, _, _, _.
  split; [apply (measure_run c t dark nonlin md "reference" w Hc Hne)|].
  split; [apply (measure_run c t dark nonlin md "sample" w Hc Hne)|].
  cbn [MockSpectrumData.intensities]. split; [reflexivity|]. split; [reflexivity|].
  unfold scaled, np.mul_s, spectrum_of. rewrite Hdef.
  assert (Hk : 0 <= IZR (default 100000%Z t) / 100000).
  { apply IZR_le in Ht. apply Rmult_le_pos; [exact Ht | lra]. }
  apply Forall2_fmap. apply Forall2_imap_same. intros j x. simpl.
  destruct (shape_range "sample" x) as [_ Hlt].
  change (shape "sample") with sample_shape.
  change (shape "reference") with reference_shape.
  apply Rmult_le_compat_r; [exact Hk | lra].
Qed.

Lemma sample_not_above_reference_witness :
  exists dr wr ds ws,
    measure_spectrum mock001_connected None false false None "reference" quiet_world
      = (Ok dr, wr) /\
    measure_spectrum mock001_connected None false false None "sample" quiet_world
      = (Ok ds, ws) /\
    Forall2 Rle (as_vec (MockSpectrumData.intensities ds))
                (as_vec (MockSpectrumData.intensities dr)).
Proof.
  assert (Ht : (0 <= default 100000 (@None Z))%Z) by (cbn; lia).
  destruct (sample_not_above_reference mock001_connected None false false None quiet_world
              mock001_connected_instance eq_refl Ht)
    as (dr & wr & ds & ws & r & s & Hr & Hs & Hir & His & Hle).
  exists dr, wr, ds, ws. rewrite Hir, His. auto.
Defined.

(** ** Series of measurements *)

(** An averaged series of at least one measurement, spelled out with its
    column means and deviations. *)
Lemma averaged_series_run c n t kind w :
  is_connected c = true -> wavelengths c <> [] -> (1 <= n)%Z ->
  exists ds w1 dlast,
    sub_measurements c t kind w ds w1 /\ length ds = Z.to_nat n /\ last ds = Some dlast /\
    measure_multiple_spectra c n t true kind w =
      (Ok (MockSpectrumData.mk (wavelengths c)
             (vec (series_mean n ds (length (wavelengths c))))
             (clock w1 0) (MockSpectrumData.integration_time_us dlast) (length (heap w1))),
       World (rng w1) (fun i => clock w1 (S i)) (stdout w1)
             (heap w1 ++ [ {[ "n_measurements" := PyInt n;
                              "std_intensities" :=
                                PyArray (vec (series_std n ds (length (wavelengths c))));
                              "averaged" := PyBool true;
                              "mock" := PyBool true ]} ])).
Proof.
  intros Hc Hne Hn.
  destruct (series_run c n t true kind w Hc Hne Hn)
    as (ds & w1 & dlast & Hsub & Hlen & Hlast & Hrun).
  pose proof (sub_measurements_shape c t kind w ds w1 Hc Hne Hsub) as Hshape.
  pose proof (rows_of_series c t ds Hshape) as Hrows.
  set (L := length (wavelengths c)) in *.
  set (f := fun d => as_vec (MockSpectrumData.intensities d)) in *.
  assert (Hall : Forall (fun r' => length r' = L) (map f ds)).
  { apply Forall_fmap. eapply Forall_impl; [exact Hshape|].
    intros d (Hd & _ & _). exact Hd. }
  assert (Hcount : IZR (Z.of_nat (length (map f ds))) = IZR n).
  { rewrite length_map, Hlen. f_equal. lia. }
  assert (Hcol : forall j, map (fun r' => nth j r' 0) (map f ds) = column j ds).
  { intros j. unfold column. rewrite map_map. reflexivity. }
  exists ds, w1, dlast. repeat split; try assumption.
  rewrite Hrun. unfold series_metadata.
  destruct ds as [|d0 ds']; [discriminate Hlast|].
  set (ds := d0 :: ds') in *.
  assert (Hmean : np.mean (map MockSpectrumData.intensities ds) = vec (series_mean n ds L)).
  { rewrite (mean_columns L _ (f d0) (map f ds') Hrows Hall). f_equal.
    apply map_ext. intros j.
    change (f d0 :: map f ds') with (map f ds). rewrite Hcount, Hcol. reflexivity. }
  assert (Hstd : np.std (map MockSpectrumData.intensities ds) = vec (series_std n ds L)).
  { rewrite (std_columns L _ (f d0) (map f ds') Hrows Hall). cbv zeta. f_equal.
    change (f d0 :: map f ds') with (map f ds).
    apply map_ext_in. intros j Hj. apply in_seq in Hj. rewrite Hcount.
    assert (Havg : nth j (series_mean n ds L) 0
                   = Rsum (map (fun r' => nth j r' 0) (map f ds)) / IZR n).
    { unfold series_mean. rewrite Hcol. apply nth_lookup_Some.
      rewrite list_lookup_fmap, lookup_seq_lt by lia. reflexivity. }
    rewrite <- Havg. do 2 f_equal. rewrite <- Hcol, !map_map. reflexivity. }
  rewrite Hmean, Hstd. reflexivity.
Qed.

Lemma add_reduce0_length L r rs :
  Forall (fun r' => length r' = L) (r :: rs) -> length (np.add_reduce0 r rs) = L.
Proof.
  intros Hall. rewrite (add_reduce0_columns L) by exact Hall.
  rewrite length_map, length_seq. reflexivity.
Qed.

(** The rows are added from the first to the last, column by column. *)
Lemma add_reduce0_nth L rs : forall r j,
  Forall (fun r' => length r' = L) (r :: rs) -> (j < L)%nat ->
  nth j (np.add_reduce0 r rs) 0 =
    fold_left Rplus (map (fun r' => nth j r' 0) rs) (nth j r 0).
Proof.
  induction rs as [|r1 rs IH]; intros r j Hall Hj; [reflexivity|].
  apply Forall_cons_1 in Hall as [Hr Hall].
  pose proof Hall as Hall'. apply Forall_cons_1 in Hall' as [Hr1 Hrs].
  change (np.add_reduce0 r (r1 :: rs)) with (np.add_reduce0 (np.add r r1) rs).
  rewrite IH; [|apply Forall_cons_2; [apply zip_with_same_length; assumption | exact Hrs]
               |exact Hj].
  cbn [map fold_left]. unfold np.add. rewrite nth_zip_with by lia. reflexivity.
Qed.

(** The rows of a series, run by run. *)
Lemma series_rows c t kind w ds w' :
  is_connected c = true -> wavelengths c <> [] ->
  sub_measurements c t kind w ds w' ->
  np.rows (map MockSpectrumData.intensities ds) =
    map (fun i => np.mul_s (spectrum_of (wavelengths c) kind
                              (run_noise w (length (wavelengths c)) i))
                           (IZR (default (_default_integration_time c) t) / 100000))
        (seq 0 (length ds)).
Proof.
  intros Hc Hne Hsub.
  rewrite (rows_of_series c t ds (sub_measurements_shape c t kind w ds w' Hc Hne Hsub)).
  destruct (sub_measurements_trace c t kind w ds w' Hc Hne Hsub) as (Hint & _).
  rewrite <- (map_map MockSpectrumData.intensities as_vec), Hint, map_map.
  reflexivity.
Qed.

(** X7: an averaged series on a connected instance, in terms of the
    generator's variates: run [i] draws the variates [i * 2048] to
    [i * 2048 + 2047], its value at axis point [j] is the curve plus
    [0 + 500 * z] for the variate [i * 2048 + j], scaled by the exposure, and
    the result at [j] is the sum of these values over the runs, taken from
    the first run to the last, divided by [n]. *)
Theorem averaged_series_closed_form c n t kind w :
  instance c -> is_connected c = true -> (1 <= n)%Z ->
  exists r w',
    measure_multiple_spectra c n t true kind w = (Ok r, w') /\
    MockSpectrumData.intensities r =
      vec (imap (fun j x =>
                   fold_left Rplus
                     (map (fun i => (shape kind x + (0 + 500 * rng w (i * 2048 + j)%nat))
                                    * (IZR (default 100000%Z t) / 100000))
                          (seq 1 (Z.to_nat n - 1)))
                     ((shape kind x + (0 + 500 * rng w (0 * 2048 + j)%nat))
                      * (IZR (default 100000%Z t) / 100000))
                   / IZR n)
                (wavelengths c)).
Proof.
  intros Hinst Hc Hn. pose proof (instance_axis_nonempty c Hinst) as Hne.
  destruct (instance_fields c Hinst) as [_ Hdef].
  assert (HL : length (wavelengths c) = 2048%nat).
  { rewrite (instance_axis c Hinst), length_map, length_seq. reflexivity. }
  destruct (series_run c n t true kind w Hc Hne Hn)
    as (ds & w1 & dlast & Hsub & Hlen & _ & Hrun).
  pose proof (series_rows c t kind w ds w1 Hc Hne Hsub) as Hrows.
  rewrite Hlen, Hdef, HL in Hrows.
  set (k := IZR (default 100000%Z t) / 100000) in *.
  set (g := fun i => np.mul_s (spectrum_of (wavelengths c) kind (run_noise w 2048 i)) k) in *.
  destruct (Z.to_nat n) as [|m] eqn:Hm; [lia|].
  cbn [seq map] in Hrows. rewrite <- fmap_S_seq in Hrows.
  replace (S m - 1)%nat with m by lia.
  assert (Hall : Forall (fun r' => length r' = 2048%nat) (g 0%nat :: map g (S <$> seq 0 m))).
  { apply Forall_cons_2; [|apply Forall_fmap, Forall_forall; intros i _; simpl];
      unfold g, np.mul_s; rewrite length_map, spectrum_of_length; exact HL. }
  assert (Hcount : IZR (Z.of_nat (length (g 0%nat :: map g (S <$> seq 0 m)))) = IZR n).
  { cbn [length]. rewrite length_map, length_fmap, length_seq. f_equal. lia. }
  assert (Hg : forall i j x, wavelengths c !! j = Some x ->
            nth j (g i) 0 = (shape kind x + (0 + 500 * rng w (i * 2048 + j)%nat)) * k).
  { intros i j x Hx. apply nth_lookup_Some. unfold g, np.mul_s, spectrum_of.
    rewrite list_lookup_fmap, list_lookup_imap, Hx. reflexivity. }
  eexists _, _. split; [exact Hrun|]. cbn [MockSpectrumData.intensities].
  unfold np.mean. rewrite Hrows, Hcount. f_equal.
  apply list_eq. intros j. unfold np.div_s.
  rewrite list_lookup_fmap, list_lookup_imap.
  destruct (wavelengths c !! j) as [x|] eqn:Hx.
  - pose proof (lookup_lt_Some _ _ _ Hx) as Hj. rewrite HL in Hj.
    pose proof (add_reduce0_length _ _ _ Hall) as Hsumlen.
    destruct (lookup_lt_is_Some_2 (np.add_reduce0 (g 0%nat) (map g (S <$> seq 0 m))) j)
      as [v Hv]; [lia|].
    rewrite Hv. cbn [fmap option_fmap option_map]. do 2 f_equal.
    rewrite <- (nth_lookup_Some _ _ 0 _ Hv).
    rewrite (add_reduce0_nth 2048 _ _ j Hall Hj), (Hg 0%nat j x Hx).
    f_equal. rewrite map_map, fmap_S_seq. apply map_ext. intros i. apply (Hg i j x Hx).
  - rewrite lookup_ge_None_2; [reflexivity|].
    apply lookup_ge_None_1 in Hx.
    rewrite (add_reduce0_length _ _ _ Hall). lia.
Qed.

Lemma averaged_series_closed_form_witness :
  exists r w',
    measure_multiple_spectra mock001_connected 3 None true "reference" quiet_world
      = (Ok r, w') /\
    length (as_vec (MockSpectrumData.intensities r))
      = length (wavelengths mock001_connected).
Proof.
  assert (Hn : (1 <= 3)%Z) by lia.
  destruct (averaged_series_closed_form mock001_connected 3 None "reference" quiet_world
              mock001_connected_instance eq_refl Hn) as (r & w' & Hrun & Hint).
  exists r, w'. split; [exact Hrun|]. rewrite Hint. cbn [as_vec]. apply length_imap.
Defined.

Lemma Rsum_const (a : R) (l : list nat) :
  Rsum (map (fun _ => a) l) = IZR (Z.of_nat (length l)) * a.
Proof.
  induction l as [|i l IH].
  - unfold Rsum. cbn [map fold_right length]. change (Z.of_nat 0) with 0%Z. lra.
  - change (Rsum (map (fun _ => a) (i :: l))) with (a + Rsum (map (fun _ => a) l)).
    cbn [length]. rewrite IH, Nat2Z.inj_succ, succ_IZR. lra.
Qed.

Lemma Rsum_deviation_const (a : R) (l : list nat) :
  Rsum (map (fun x => (x - a) * (x - a)) (map (fun _ => a) l)) = 0.
Proof.
  induction l as [|i l IH]; [reflexivity|].
  change (Rsum (map (fun x => (x - a) * (x - a)) (map (fun _ => a) (i :: l))))
    with ((a - a) * (a - a) + Rsum (map (fun x => (x - a) * (x - a)) (map (fun _ => a) l))).
  rewrite IH. lra.
Qed.

(** When all runs agree at every point, the mean is the common value and the
    standard deviation vanishes. *)
Lemma constant_columns n ds size :
  (1 <= n)%Z -> length ds = Z.to_nat n ->
  (forall j, (j < size)%nat ->
     exists a, column j ds = map (fun _ => a) (seq 0 (length ds))) ->
  (forall j a, (j < size)%nat -> column j ds = map (fun _ => a) (seq 0 (length ds)) ->
     nth j (series_mean n ds size) 0 = a) /\
  Forall (fun v => v = 0) (series_std n ds size).
Proof.
  intros Hn Hlen Hconst.
  assert (Hn0 : IZR n <> 0) by (apply not_0_IZR; lia).
  assert (Hmean : forall j a, (j < size)%nat ->
            column j ds = map (fun _ => a) (seq 0 (length ds)) ->
            nth j (series_mean n ds size) 0 = a).
  { intros j a Hj Hcol. unfold series_mean. apply nth_lookup_Some.
    rewrite list_lookup_fmap, lookup_seq_lt by exact Hj.
    cbn [fmap option_fmap option_map Nat.add]. f_equal.
    rewrite Hcol, Rsum_const, length_seq, Hlen.
    replace (IZR (Z.of_nat (Z.to_nat n))) with (IZR n) by (f_equal; lia).
    field. exact Hn0. }
  split; [exact Hmean|].
  unfold series_std. apply Forall_fmap, Forall_forall. intros j Hj.
  apply list_elem_of_In, in_seq in Hj. simpl.
  destruct (Hconst j ltac:(lia)) as [a Hcol].
  fold (series_mean n ds size).
  rewrite (Hmean j a ltac:(lia) Hcol), Hcol, Rsum_deviation_const.
  unfold Rdiv. rewrite Rmult_0_l. apply sqrt_0.
Qed.

(** X8: a series with [average = False] on a connected instance returns the
    [n] sub-measurements stacked in the order they were made: a
    two-dimensional array of exactly [n] rows, each as long as the axis. Its
    metadata holds the count, "averaged" set false and "mock" set true, and
    no standard deviation; its integration time is the last
    sub-measurement's. *)
Theorem measure_multiple_spectra_stacked c n t kind w :
  instance c -> is_connected c = true -> (1 <= n)%Z ->
  exists ds w1 dlast r w' stack,
    sub_measurements c t kind w ds w1 /\
    last ds = Some dlast /\
    measure_multiple_spectra c n t false kind w = (Ok r, w') /\
    MockSpectrumData.intensities r = mat stack /\
    stack = map (fun d => as_vec (MockSpectrumData.intensities d)) ds /\
    length stack = Z.to_nat n /\
    Forall (fun row => length row = length (wavelengths c)) stack /\
    heap w' !! MockSpectrumData.metadata r =
      Some {[ "n_measurements" := PyInt n;
              "averaged" := PyBool false;
              "mock" := PyBool true ]} /\
    MockSpectrumData.integration_time_us r = MockSpectrumData.integration_time_us dlast.
Proof.
  intros Hinst Hc Hn. pose proof (instance_axis_nonempty c Hinst) as Hne.
  destruct (series_run c n t false kind w Hc Hne Hn)
    as (ds & w1 & dlast & Hsub & Hlen & Hlast & Hrun).
  pose proof (sub_measurements_shape c t kind w ds w1 Hc Hne Hsub) as Hshape.
  exists ds, w1, dlast. eexists _, _, _.
  split; [exact Hsub|]. split; [exact Hlast|]. split; [exact Hrun|].
  cbn [MockSpectrumData.intensities MockSpectrumData.metadata
       MockSpectrumData.integration_time_us heap].
  split.
  { destruct ds as [|d0 ds']; [discriminate Hlast|].
    unfold np.array. cbn [map]. f_equal.
    apply (rows_of_series c t (d0 :: ds') Hshape). }
  split; [reflexivity|].
  split; [rewrite length_map; exact Hlen|].
  split.
  { apply Forall_fmap. eapply Forall_impl; [exact Hshape|].
    intros d (Hd & _ & _). exact Hd. }
  split; [rewrite list_lookup_middle by reflexivity; reflexivity|].
  reflexivity.
Qed.

Lemma measure_multiple_spectra_stacked_witness :
  exists r w' stack,
    measure_multiple_spectra mock001_connected 5 None false "sample" quiet_world
      = (Ok r, w') /\
    MockSpectrumData.intensities r = mat stack /\ length stack = 5%nat.
Proof.
  assert (Hn : (1 <= 5)%Z) by lia.
  destruct (measure_multiple_spectra_stacked mock001_connected 5 None "sample" quiet_world
              mock001_connected_instance eq_refl Hn)
    as (ds & w1 & dl & r & w' & stack & _ & _ & Hrun & Hint & _ & Hlen & _).
  exists r, w', stack. auto.
Defined.

(** X9: an averaged series of a single measurement returns that
    measurement's intensities and integration time, with a standard
    deviation of zero at every point of the axis. *)
Theorem single_run_series c t kind w :
  instance c -> is_connected c = true ->
  exists d w1 r w' sd,
    measure_spectrum c t false false None kind w = (Ok d, w1) /\
    measure_multiple_spectra c 1 t true kind w = (Ok r, w') /\
    MockSpectrumData.intensities r = MockSpectrumData.intensities d /\
    MockSpectrumData.integration_time_us r = MockSpectrumData.integration_time_us d /\
    heap w' !! MockSpectrumData.metadata r =
      Some {[ "n_measurements" := PyInt 1;
              "std_intensities" := PyArray (vec sd);
              "averaged" := PyBool true;
              "mock" := PyBool true ]} /\
    length sd = length (wavelengths c) /\
    Forall (fun v => v = 0) sd.
Proof.
  intros Hinst Hc. pose proof (instance_axis_nonempty c Hinst) as Hne.
  assert (Hn : (1 <= 1)%Z) by lia.
  destruct (averaged_series_run c 1 t kind w Hc Hne Hn)
    as (ds & w1 & dlast & Hsub & Hlen & Hlast & Hrun).
  pose proof (sub_measurements_shape c t kind w ds w1 Hc Hne Hsub) as Hshape.
  destruct ds as [|d [|d' ds']]; try discriminate Hlen.
  injection Hlast as <-.
  inversion Hsub as [|w0 d0 w1' ds0 w2 Hd Hrest]; subst.
  inversion Hrest; subst.
  apply Forall_cons_1 in Hshape as [(Hdlen & Hdvec & _) _].
  set (L := length (wavelengths c)) in *.
  destruct (constant_columns 1 [d] L Hn eq_refl) as [_ Hzero].
  { intros j _. eexists. reflexivity. }
  exists d, w1. eexists _, _, _.
  split; [exact Hd|]. split; [exact Hrun|].
  cbn [MockSpectrumData.intensities MockSpectrumData.metadata
       MockSpectrumData.integration_time_us heap].
  split.
  { rewrite Hdvec. f_equal. unfold series_mean, column. cbn [map].
    etransitivity; [|symmetry; apply seq_tabulate].
    rewrite Hdlen. apply map_ext. intros j. unfold Rsum. cbn [fold_right]. field. }
  split; [reflexivity|].
  split; [rewrite list_lookup_middle by reflexivity; reflexivity|].
  split; [unfold series_std; rewrite length_map, length_seq; reflexivity|].
  exact Hzero.
Qed.

Lemma single_run_series_witness :
  exists d w1 r w',
    measure_spectrum mock001_connected None false false None "sample" quiet_world
      = (Ok d, w1) /\
    measure_multiple_spectra mock001_connected 1 None true "sample" quiet_world
      = (Ok r, w') /\
    MockSpectrumData.intensities r = MockSpectrumData.intensities d.
Proof.
  destruct (single_run_series mock001_connected None "sample" quiet_world
              mock001_connected_instance eq_refl)
    as (d & w1 & r & w' & sd & Hd & Hrun & Hint & _).
  exists d, w1, r, w'. auto.
Defined.

(** X10: when the generator yields only zeros, a series with
    [average = False] on a connected instance returns [n] rows that are all
    the noise-free curve scaled by the exposure. *)
Theorem silent_series_rows c n t kind w :
  (forall i, rng w i = 0) ->
  instance c -> is_connected c = true -> (1 <= n)%Z ->
  exists r w' stack,
    measure_multiple_spectra c n t false kind w = (Ok r, w') /\
    MockSpectrumData.intensities r = mat stack /\
    length stack = Z.to_nat n /\
    Forall (fun row =>
              row = map (fun x => shape kind x * (IZR (default 100000%Z t) / 100000))
                        (wavelengths c))
           stack.
Proof.
  intros Hsilent Hinst Hc Hn. pose proof (instance_axis_nonempty c Hinst) as Hne.
  destruct (instance_fields c Hinst) as [_ Hdef].
  destruct (series_run c n t false kind w Hc Hne Hn)
    as (ds & w1 & dlast & Hsub & Hlen & Hlast & Hrun).
  pose proof (series_rows c t kind w ds w1 Hc Hne Hsub) as Hrows.
  eexists _, _, _. split; [exact Hrun|]. cbn [MockSpectrumData.intensities].
  split.
  { destruct ds as [|d0 ds']; [discriminate Hlast|].
    unfold np.array. cbn [map]. f_equal. exact Hrows. }
  split; [rewrite length_map, length_seq; exact Hlen|].
  apply Forall_fmap, Forall_forall. intros i _. simpl.
  unfold np.mul_s, spectrum_of. rewrite Hdef.
  apply list_eq. intros j. rewrite !list_lookup_fmap, list_lookup_imap.
  destruct (wavelengths c !! j) as [x|]; [|reflexivity].
  cbn [fmap option_fmap option_map]. f_equal.
  unfold noise, run_noise. rewrite Hsilent. lra.
Qed.

Lemma silent_series_rows_witness :
  exists r w' stack,
    measure_multiple_spectra mock001_connected 3 None false "reference" quiet_world
      = (Ok r, w') /\
    MockSpectrumData.intensities r = mat stack /\
    length stack = 3%nat.
Proof.
  assert (Hsilent : forall i, rng quiet_world i = 0) by reflexivity.
  assert (Hn : (1 <= 3)%Z) by lia.
  destruct (silent_series_rows mock001_connected 3 None "reference" quiet_world
              Hsilent mock001_connected_instance eq_refl Hn)
    as (r & w' & stack & Hrun & Hint & Hlen & _).
  exists r, w', stack. auto.
Defined.

(** X11: what a series of [n >= 1] measurements does to its environment,
    averaged or not: it draws [n * 2048] variates, reads the clock [n + 1]
    times (the result is stamped after the last sub-measurement), prints one
    line per sub-measurement, and creates [n + 1] dictionaries, the newest
    being the result's metadata, without touching any existing one. *)
Theorem series_effects c n t avg kind w :
  instance c -> is_connected c = true -> (1 <= n)%Z ->
  exists r w' peaks,
    measure_multiple_spectra c n t avg kind w = (Ok r, w') /\
    (forall i, rng w' i = rng w (Z.to_nat n * 2048 + i)%nat) /\
    MockSpectrumData.timestamp r = clock w (Z.to_nat n) /\
    (forall i, clock w' i = clock w (Z.to_nat n + 1 + i)%nat) /\
    stdout w' = stdout w ++ map (LMeasured (default 100000%Z t)) peaks /\
    length peaks = Z.to_nat n /\
    length (heap w') = (length (heap w) + Z.to_nat n + 1)%nat /\
    MockSpectrumData.metadata r = (length (heap w) + Z.to_nat n)%nat /\
    forall l m, heap w !! l = Some m -> heap w' !! l = Some m.
Proof.
  intros Hinst Hc Hn. pose proof (instance_axis_nonempty c Hinst) as Hne.
  destruct (instance_fields c Hinst) as [_ Hdef].
  assert (HL : length (wavelengths c) = 2048%nat).
  { rewrite (instance_axis c Hinst), length_map, length_seq. reflexivity. }
  destruct (series_run c n t avg kind w Hc Hne Hn)
    as (ds & w1 & dlast & Hsub & Hlen & _ & Hrun).
  destruct (sub_measurements_trace c t kind w ds w1 Hc Hne Hsub)
    as (_ & Hrng & Hclock & Hout & Hheap & Hold).
  rewrite Hlen, HL in Hrng. rewrite Hlen in Hclock, Hheap. rewrite Hdef in Hout.
  eexists _, _,
    (map (fun d => peak_of (as_vec (MockSpectrumData.intensities d))) ds).
  split; [exact Hrun|].
  cbn [rng clock stdout heap MockSpectrumData.timestamp MockSpectrumData.metadata].
  split; [exact Hrng|].
  split; [rewrite Hclock; f_equal; lia|].
  split; [intros i; rewrite Hclock; f_equal; lia|].
  split; [rewrite Hout, map_map; reflexivity|].
  split; [rewrite length_map; exact Hlen|].
  split; [rewrite length_app, Hheap; simpl; lia|].
  split; [exact Hheap|].
  intros l m Hl. pose proof (lookup_lt_Some _ _ _ Hl) as Hlt.
  rewrite lookup_app_l by lia. rewrite Hold by exact Hlt. exact Hl.
Qed.

Lemma series_effects_witness :
  exists r w',
    measure_multiple_spectra mock001_connected 3 None false "sample" lab_world
      = (Ok r, w') /\
    MockSpectrumData.timestamp r = 3%Z /\
    heap w' !! O = Some {[ "operator" := PyStr "ann" ]}.
Proof.
  assert (Hn : (1 <= 3)%Z) by lia.
  destruct (series_effects mock001_connected 3 None false "sample" lab_world
              mock001_connected_instance eq_refl Hn)
    as (r & w' & peaks & Hrun & _ & Htime & _ & _ & _ & _ & _ & Hold).
  exists r, w'. split; [exact Hrun|]. split; [exact Htime|].
  apply Hold. reflexivity.
Defined.

(** * The setup script *)

Lemma prefix_append (needle hay : string) :
  String.prefix needle hay = true <-> exists rest, hay = needle +:+ rest.
Proof.
  revert hay. induction needle as [|a needle IH]; intros hay.
  - split; [intros _; exists hay; reflexivity | intros _; destruct hay; reflexivity].
  - destruct hay as [|b hay]; cbn [String.prefix].
    + split; [discriminate | intros [rest Hrest]; discriminate Hrest].
    + destruct (Ascii.ascii_dec a b) as [<- | Hab].
      * rewrite IH. split; intros [rest Hrest]; exists rest.
        -- cbn. rewrite Hrest. reflexivity.
        -- cbn in Hrest. injection Hrest as ->. reflexivity.
      * split; [discriminate | intros [rest Hrest]].
        cbn in Hrest. injection Hrest as Heq _. congruence.
Qed.

Lemma contains_occurrence (needle hay : string) :
  setup_check.contains needle hay = true <->
  exists before after, hay = before +:+ needle +:+ after.
Proof.
  induction hay as [|b hay IH]; cbn [setup_check.contains].
  - destruct (String.prefix needle "") eqn:Hp.
    + split; [intros _ | reflexivity].
      apply prefix_append in Hp as [rest Hrest]. exists ""%string, rest. exact Hrest.
    + split; [discriminate | intros (before & after & Heq)].
      destruct before as [|x before]; [|discriminate Heq].
      rewrite <- Hp. apply prefix_append. exists after. exact Heq.
  - destruct (String.prefix needle (String b hay)) eqn:Hp.
    + split; [intros _ | reflexivity].
      apply prefix_append in Hp as [rest Hrest]. exists ""%string, rest. exact Hrest.
    + rewrite IH. split; intros (before & after & Heq).
      * exists (String b before), after. cbn. rewrite Heq. reflexivity.
      * destruct before as [|x before].
        -- assert (Hp' : String.prefix needle (String b hay) = true)
             by (apply prefix_append; exists after; exact Heq).
           congruence.
        -- cbn in Heq. injection Heq as _ ->. exists before, after. reflexivity.
Qed.

(** X12: [run_command] never lets [CalledProcessError] escape and its result
    does not depend on [check]: in either mode it reports success exactly
    when the exit code is zero, together with the captured output. *)
Theorem run_command_result proc command check :
  setup_check.run_command proc command check =
    ((setup_check.returncode (proc command) =? 0)%Z,
     setup_check.stdout (proc command),
     setup_check.stderr (proc command)).
Proof.
  unfold setup_check.run_command, setup_check.subprocess_run.
  destruct check; [|reflexivity]. cbn [andb].
  destruct (setup_check.returncode (proc command) =? 0)%Z eqn:Hrc; cbn [negb].
  - rewrite Hrc. reflexivity.
  - reflexivity.
Qed.

(** X13: [check_user_groups] passes exactly when [groups] exits with code
    zero and the text "plugdev" occurs somewhere in its output; the test is
    on the text, not on group names, so a group whose name merely contains
    "plugdev" passes as well. *)
Theorem check_user_groups_substring proc :
  fst (setup_check.check_user_groups proc) = true <->
  setup_check.returncode (proc "groups"%string) = 0%Z /\
  exists before after,
    setup_check.stdout (proc "groups"%string) = before +:+ "plugdev" +:+ after.
Proof.
  unfold setup_check.check_user_groups, setup_check.run_command,
    setup_check.subprocess_run. cbn [andb].
  rewrite <- contains_occurrence, <- Z.eqb_eq.
  destruct (setup_check.returncode (proc "groups"%string) =? 0)%Z,
    (setup_check.contains "plugdev" (setup_check.stdout (proc "groups"%string)));
    cbn; intuition congruence.
Qed.
